(** * Priority Living CLI: offline queue, resilient client, task executor
      and liveness registry

    A shallow embedding of [priority_living/offline_queue.py] and of
    [priority_living/agents.py] (plain requests, marker files, the task
    executor, the [stop] and [start] actions and the worker's poll cycle),
    followed by the properties of the specification checked against it
    and by further properties read off the code.

    Conventions of the embedding:
    - the queue file, the agents directory, the network and the operating
      system are explicit arguments and results (state passing);
    - a Python [try]/[except] chain is a list of clauses tried in order, a
      clause matching when the raised exception is an instance of one of
      its classes ([dispatch]);
    - [print] calls are log output only and are left out. *)

From Stdlib Require Import ZArith String Ascii List Bool Lia DecimalString.
From stdpp Require Import base option list gmap strings.
Import ListNotations.

Set Warnings "-register-all".

Local Open Scope string_scope.
Local Open Scope list_scope.
Local Open Scope Z_scope.

(* ===================================================================== *)
(** ** JSON-compatible Python values *)
(* ===================================================================== *)

Module Json.

(** What [json.load] yields and [json.dump] accepts.  Numbers are the
    integers; an object is its key/value pairs in insertion order, keys
    pairwise distinct as in a Python [dict]. *)
Inductive json : Type :=
| JNull
| JBool (b : bool)
| JNum (n : Z)
| JStr (s : string)
| JArr (items : list json)
| JObj (fields : list (string * json)).

(** Python truthiness, as used by [if data:]. *)
Definition truthy (v : json) : bool :=
  match v with
  | JNull => false
  | JBool b => b
  | JNum n => negb (n =? 0)
  | JStr s => negb (String.eqb s EmptyString)
  | JArr items => match items with [] => false | _ :: _ => true end
  | JObj fields => match fields with [] => false | _ :: _ => true end
  end.

(** [d.get(k)] on an object given by its pairs. *)
Fixpoint assoc (k : string) (fields : list (string * json)) : option json :=
  match fields with
  | [] => None
  | (k', v) :: rest => if String.eqb k k' then Some v else assoc k rest
  end.

(** Python's [==] on these values: [True == 1] and [False == 0] hold,
    lists compare element by element, dicts compare as maps (same number
    of keys, every key of the left one bound to an equal value in the
    right one, whatever the insertion order). *)
Fixpoint py_eq (a b : json) {struct a} : bool :=
  match a, b with
  | JNull, JNull => true
  | JBool x, JBool y => Bool.eqb x y
  | JBool x, JNum n => Z.b2z x =? n
  | JNum n, JBool y => n =? Z.b2z y
  | JNum m, JNum n => m =? n
  | JStr s, JStr t => String.eqb s t
  | JArr xs, JArr ys =>
      (fix all2 (xs ys : list json) {struct xs} : bool :=
         match xs, ys with
         | [], [] => true
         | x :: xs', y :: ys' => py_eq x y && all2 xs' ys'
         | _, _ => false
         end) xs ys
  | JObj kvs, JObj kvs' =>
      Nat.eqb (length kvs) (length kvs') &&
      (fix allkeys (kvs : list (string * json)) {struct kvs} : bool :=
         match kvs with
         | [] => true
         | (k, v) :: rest =>
             match assoc k kvs' with
             | Some v' => py_eq v v'
             | None => false
             end && allkeys rest
         end) kvs
  | _, _ => false
  end.

End Json.
Export Json.

(* ===================================================================== *)
(** ** Python exceptions and [try]/[except] dispatch *)
(* ===================================================================== *)

Module PyExc.

(** The exception classes the modelled code names or can meet. *)
Inductive pyclass : Type :=
| C_Exception
| C_OSError
| C_URLError            (* urllib.error.URLError *)
| C_HTTPError           (* urllib.error.HTTPError *)
| C_ProcessLookupError
| C_PermissionError
| C_ValueError
| C_TimeoutExpired      (* subprocess.TimeoutExpired *)
| C_Other.              (* any other subclass of Exception *)

Definition pyclass_eqb (c d : pyclass) : bool :=
  match c, d with
  | C_Exception, C_Exception | C_OSError, C_OSError
  | C_URLError, C_URLError | C_HTTPError, C_HTTPError
  | C_ProcessLookupError, C_ProcessLookupError
  | C_PermissionError, C_PermissionError
  | C_ValueError, C_ValueError
  | C_TimeoutExpired, C_TimeoutExpired
  | C_Other, C_Other => true
  | _, _ => false
  end.

(** The class and its ancestors up to [Exception], as the standard
    library declares them: [class URLError(OSError)],
    [class HTTPError(URLError, addinfourl)],
    [ProcessLookupError] and [PermissionError] under [OSError]. *)
Definition mro (c : pyclass) : list pyclass :=
  match c with
  | C_Exception => [C_Exception]
  | C_OSError => [C_OSError; C_Exception]
  | C_URLError => [C_URLError; C_OSError; C_Exception]
  | C_HTTPError => [C_HTTPError; C_URLError; C_OSError; C_Exception]
  | C_ProcessLookupError => [C_ProcessLookupError; C_OSError; C_Exception]
  | C_PermissionError => [C_PermissionError; C_OSError; C_Exception]
  | C_ValueError => [C_ValueError; C_Exception]
  | C_TimeoutExpired => [C_TimeoutExpired; C_Exception]
  | C_Other => [C_Other; C_Exception]
  end.

Definition issubclass (c d : pyclass) : bool := existsb (pyclass_eqb d) (mro c).

(** A raised exception: its class, [e.code] (meaningful for an
    [HTTPError] only) and [str(e)]. *)
Record exn : Type := Exn {
  exn_class : pyclass;
  exn_code : Z;
  exn_str : string
}.

Definition isinstance (e : exn) (c : pyclass) : bool := issubclass (exn_class e) c.

(** [except (C1, ..., Cn):] matches when the exception is an instance of
    one of the listed classes. *)
Definition matches (e : exn) (classes : list pyclass) : bool :=
  existsb (isinstance e) classes.

(** The clauses of a [try] statement are tried in the order written; the
    first that matches runs.  [None]: no clause matches and the exception
    propagates. *)
Fixpoint dispatch {A : Type} (clauses : list (list pyclass * (exn -> A)))
         (e : exn) : option A :=
  match clauses with
  | [] => None
  | (classes, handler) :: rest =>
      if matches e classes then Some (handler e) else dispatch rest e
  end.

(** Result of running a block that may raise. *)
Inductive outcome (A : Type) : Type :=
| Returns (a : A)
| Raises (e : exn).
Arguments Returns {A} a.
Arguments Raises {A} e.

(** Exceptions used in the examples. *)
Definition http_error (code : Z) : exn := Exn C_HTTPError code "HTTP Error".
Definition url_error : exn := Exn C_URLError 0 "<urlopen error unreachable>".
Definition os_error : exn := Exn C_OSError 0 "timed out".

End PyExc.
Export PyExc.

(* ===================================================================== *)
(** ** [offline_queue.py] *)
(* ===================================================================== *)

Module OfflineQueue.

Definition MAX_QUEUE_SIZE : nat := 500.

(** One queued request: the dict built by [enqueue]. *)
Record entry : Type := Entry {
  endpoint : string;
  data : json;
  method : string;
  queued_at : string
}.

(** [==] on two such dicts: the same four keys, values compared with
    Python's [==]. *)
Definition entry_eq (a b : entry) : bool :=
  String.eqb (endpoint a) (endpoint b) && py_eq (data a) (data b)
  && String.eqb (method a) (method b) && String.eqb (queued_at a) (queued_at b).

(** Content of [QUEUE_FILE]: text that [json.load] turns into a queue, a
    list of entries as [enqueue] builds them and [_save_queue] writes
    them; or text (or a file) on which opening or [json.load] raises.  A
    file that parses to another JSON value, which this program never
    writes, is not covered. *)
Inductive file : Type :=
| Parsed (queue : list entry)
| Unparsable (raw : string).

(** The disk as far as the queue goes: [None] when [QUEUE_FILE] does not
    exist. *)
Definition disk : Type := option file.

Definition _load_queue (d : disk) : list entry :=
  match d with
  | None => []
  | Some (Parsed queue) => queue
  | Some (Unparsable _) => []
  end.

Definition _save_queue (queue : list entry) (d : disk) : disk :=
  Some (Parsed queue).

(** [now] is the reading of [datetime.now(timezone.utc).isoformat()]. *)
Definition enqueue (now : string) (endpoint : string) (data : json)
           (method : string) (d : disk) : disk :=
  let queue := _load_queue d in
  let entry := Entry endpoint data method now in
  let queue := queue ++ [entry] in
  let queue :=
    if (MAX_QUEUE_SIZE <? length queue)%nat
    then let dropped := (length queue - MAX_QUEUE_SIZE)%nat in drop dropped queue
    else queue in
  _save_queue queue d.

(** An [urllib.request.Request]; the body is the value handed to
    [json.dumps], absent when no [data=] is given. *)
Record request : Type := Request {
  url : string;
  body : option json;
  headers : list (string * string);
  req_method : string
}.

Definition make_url (backend endpoint : string) : string :=
  backend +:+ "/functions/v1/" +:+ endpoint.

Definition make_headers (anon_key api_key : string) : list (string * string) :=
  [ ("Content-Type", "application/json");
    ("apikey", anon_key);
    ("Authorization", "Bearer " +:+ anon_key);
    ("x-bridge-key", api_key) ].

(** [queue.index(entry)] for the entry met at position [pos] of the loop:
    the first position holding that very object or an object equal to
    it.  [None] stands for [ValueError]. *)
Fixpoint index_from (i pos : nat) (e : entry) (queue : list entry) : option nat :=
  match queue with
  | [] => None
  | x :: rest =>
      if (i =? pos)%nat || entry_eq x e then Some i
      else index_from (S i) pos e rest
  end.

Definition index (queue : list entry) (pos : nat) (e : entry) : option nat :=
  index_from 0 pos e queue.

(** What an [except] clause of the replay loop does with the entry. *)
Inductive replay_action : Type :=
| Halt      (* keep the entry and the rest, [break] *)
| Keep      (* [remaining.append(entry)] *)
| Discard.  (* [drained += 1] *)

(** The three clauses of the loop's [try], in source order. *)
Definition drain_clauses : list (list pyclass * (exn -> replay_action)) :=
  [ ([C_URLError; C_OSError], fun _ => Halt);
    ([C_HTTPError], fun e => if exn_code e >=? 500 then Keep else Discard);
    ([C_Exception], fun _ => Keep) ].

(** The request the replay loop builds from a queued entry. *)
Definition replay_request (api_key backend anon_key : string) (e : entry) : request :=
  Request (make_url backend (endpoint e)) (Some (data e))
          (make_headers anon_key api_key) (method e).

(** The [for entry in queue] loop.  [net pos req] is what sending [req]
    does at the [pos]-th iteration: it returns, or raises. *)
Fixpoint drain_loop (api_key backend anon_key : string)
         (net : nat -> request -> outcome unit)
         (queue : list entry) (pos : nat) (todo : list entry)
         (remaining : list entry) (drained : nat)
  : outcome (list entry * nat) :=
  match todo with
  | [] => Returns (remaining, drained)
  | entry :: todo' =>
      match net pos (replay_request api_key backend anon_key entry) with
      | Returns _ =>
          drain_loop api_key backend anon_key net queue (S pos) todo'
                     remaining (S drained)
      | Raises e =>
          match dispatch drain_clauses e with
          | Some Halt =>
              match index queue pos entry with
              | Some i => Returns ((remaining ++ [entry]) ++ drop (S i) queue, drained)
              | None => Raises (Exn C_ValueError 0 "x not in list")
              end
          | Some Keep =>
              drain_loop api_key backend anon_key net queue (S pos) todo'
                         (remaining ++ [entry]) drained
          | Some Discard =>
              drain_loop api_key backend anon_key net queue (S pos) todo'
                         remaining (S drained)
          | None => Raises e
          end
      end
  end.

(** [try_drain_queue]: the disk afterwards, and whether the call returned
    or an exception escaped it. *)
Definition try_drain_queue (api_key backend anon_key : string)
           (net : nat -> request -> outcome unit) (d : disk)
  : disk * outcome unit :=
  let queue := _load_queue d in
  match queue with
  | [] => (d, Returns tt)
  | _ :: _ =>
      match drain_loop api_key backend anon_key net queue 0 queue [] 0 with
      | Returns (remaining, _) => (_save_queue remaining d, Returns tt)
      | Raises e => (d, Raises e)
      end
  end.

(** The request [resilient_request] builds. *)
Definition build_request (endpoint : string) (data : json) (method : string)
           (api_key backend anon_key : string) : request :=
  if truthy data
  then Request (make_url backend endpoint) (Some data)
               (make_headers anon_key api_key) method
  else Request (make_url backend endpoint) None
               (make_headers anon_key api_key) method.

(** The three clauses of [resilient_request], in source order; each
    answers whether the request is enqueued before [None] is returned. *)
Definition request_clauses (data : json) : list (list pyclass * (exn -> bool)) :=
  [ ([C_URLError; C_OSError], fun _ => truthy data);
    ([C_HTTPError], fun e => (exn_code e >=? 500) && truthy data);
    ([C_Exception], fun _ => truthy data) ].

(** [resilient_request].  [net req] is what the body of the [try] does
    once the request is built: it returns the decoded response or raises.
    [data = JNull] is the default [data=None]. *)
Definition resilient_request (now : string) (endpoint : string) (data : json)
           (method : string) (api_key backend anon_key : string)
           (net : request -> outcome json) (d : disk)
  : disk * outcome (option json) :=
  let req := build_request endpoint data method api_key backend anon_key in
  match net req with
  | Returns response => (d, Returns (Some response))
  | Raises e =>
      match dispatch (request_clauses data) e with
      | Some true => (enqueue now endpoint data method d, Returns None)
      | Some false => (d, Returns None)
      | None => (d, Raises e)
      end
  end.

End OfflineQueue.
Export OfflineQueue.

(* ===================================================================== *)
(** ** [agents.py]: liveness markers and the task executor *)
(* ===================================================================== *)

Module Agents.

(** *** Liveness markers *)

(** [AGENTS_DIR]: the text of [<agent_id>.pid] for every agent that has
    a marker file. *)
Abbreviation agents_dir := (gmap string string).

(** The one clause of [_is_agent_running]'s [try]. *)
Definition running_clauses : list (list pyclass * (exn -> unit)) :=
  [ ([C_ProcessLookupError; C_ValueError; C_PermissionError], fun _ => tt) ].

Section Liveness.

(** [int(text.strip())]: the integer the marker's text denotes, [None]
    when [int] raises [ValueError]. *)
Variable py_int : string -> option Z.

(** [os.kill(pid, 0)]: returns when the process exists and may be
    signalled; raises [ProcessLookupError] when there is no such
    process and [PermissionError] when the process exists but belongs
    to someone else. *)
Variable os_kill : Z -> outcome unit.

(** The body of the [try]. *)
Definition probe (text : string) : outcome bool :=
  match py_int text with
  | None => Raises (Exn C_ValueError 0 "invalid literal for int()")
  | Some pid =>
      match os_kill pid with
      | Returns _ => Returns true
      | Raises e => Raises e
      end
  end.

Definition _is_agent_running (agent_id : string) (dir : agents_dir)
  : agents_dir * outcome bool :=
  match dir !! agent_id with
  | None => (dir, Returns false)
  | Some text =>
      match probe text with
      | Returns b => (dir, Returns b)
      | Raises e =>
          match dispatch running_clauses e with
          | Some _ => (delete agent_id dir, Returns false)
          | None => (dir, Raises e)
          end
      end
  end.

(** The recorded process identifier refers to a live process: the
    probe went through, or was refused for lack of permission. *)
Definition live (pid : Z) : Prop :=
  match os_kill pid with
  | Returns _ => True
  | Raises e => isinstance e C_PermissionError = true
  end.

(** It refers to a live process that the caller may not signal. *)
Definition foreign (pid : Z) : Prop :=
  match os_kill pid with
  | Returns _ => False
  | Raises e => isinstance e C_PermissionError = true
  end.

(** There is no process with that identifier. *)
Definition dead (pid : Z) : Prop :=
  match os_kill pid with
  | Returns _ => False
  | Raises e => isinstance e C_ProcessLookupError = true
  end.

End Liveness.

(** *** The task executor *)

Definition OUTPUT_CEILING : Z := 50000.
Definition WAIT_TIMEOUT : Z := 300.
Definition truncation_marker : string :=
  String (ascii_of_nat 10) "... [truncated] ...".

(** [task["action_data"]], with the keys the executor reads. *)
Record action_data : Type := ActionData {
  command : option string;
  cwd : option string;
  script : option string
}.

(** A task whose fields have the types of the task data model: a kind
    and a description that are strings, an [action_data] that is a dict
    of strings.  [Raw._execute_task] below takes the task as the JSON
    value the poll response holds. *)
Record task : Type := Task {
  action_type : string;
  task_data : action_data;
  action_description : string
}.

(** The dict [_execute_task] returns. *)
Record task_result : Type := TaskResult {
  result_status : string;
  result_data : json
}.

(** A spawned shell process whose output is decoded lines that come to
    an end: the lines successive [readline] calls return until end of
    file, the time (in seconds after the spawn) at which its output
    reaches end of file, the time at which it exits when left alone and
    its exit status then, and the status [wait] reports once [kill] was
    called.  [Raw.process] below has the reads that raise or never
    return. *)
Record process : Type := Process {
  stdout_lines : list string;
  eof_at : Z;
  exit_at : Z;
  returncode : Z;
  returncode_killed : Z
}.

(** What [subprocess.run(..., capture_output=True)] returns. *)
Record completed : Type := Completed {
  run_returncode : Z;
  run_stdout : string;
  run_stderr : string
}.

(** The operating system as the executor uses it: [Popen(cmd, shell=True,
    cwd=...)], [subprocess.run([sys.executable, "-c", script], cwd=...,
    timeout=300)] and [Path.home()]. *)
Record os : Type := OS {
  popen : string -> string -> outcome process;
  run_python : string -> string -> outcome completed;
  home : string
}.

(** The calls the executor makes to create or end a process. *)
Inductive event : Type :=
| CallPopen (cmd dir : string)   (* [subprocess.Popen(cmd, shell=True, cwd=dir)] *)
| CallRun (src dir : string)     (* [subprocess.run([sys.executable, "-c", src], cwd=dir)] *)
| Kill.                          (* [process.kill()] *)

Definition slen (s : string) : Z := Z.of_nat (String.length s).

(** [sum(len(l) for l in output_lines)]. *)
Definition total_len (lines : list string) : Z :=
  fold_right (fun l acc => slen l + acc) 0 lines.

(** [str.join] of the empty separator over [output_lines]. *)
Definition join (lines : list string) : string :=
  fold_right String.append EmptyString lines.

(** The [for line in iter(process.stdout.readline, ...)] loop on such a
    process: the lines collected, and whether the loop killed the
    process. *)
Fixpoint read_loop (pending : list string) (output_lines : list string)
  : list string * bool :=
  match pending with
  | [] => (output_lines, false)
  | line :: rest =>
      let output_lines := output_lines ++ [line] in
      if OUTPUT_CEILING <? total_len output_lines
      then (output_lines ++ [truncation_marker], true)
      else read_loop rest output_lines
  end.

(** [process.wait(timeout=300)], called once the read loop is over: at
    once after a kill, else at the time the output reached end of
    file. *)
Definition wait (p : process) (killed : bool) : outcome Z :=
  if killed then Returns (returncode_killed p)
  else if exit_at p <=? eof_at p + WAIT_TIMEOUT then Returns (returncode p)
  else Raises (Exn C_TimeoutExpired 0 "timed out after 300 seconds").

Definition status_of (rc : Z) : string :=
  if rc =? 0 then "completed" else "failed".

Definition error_result (msg : string) : task_result :=
  TaskResult "failed" (JObj [("error", JStr msg)]).

(** The two clauses of the shell branch's [try]: the result returned and
    the events the handler adds. *)
Definition shell_clauses : list (list pyclass * (exn -> task_result * list event)) :=
  [ ([C_TimeoutExpired], fun _ => (error_result "Timed out (5 min)", [Kill]));
    ([C_Exception], fun e => (error_result (exn_str e), [])) ].

Definition script_clauses : list (list pyclass * (exn -> task_result * list event)) :=
  [ ([C_Exception], fun e => (error_result (exn_str e), [])) ].

Definition is_shell_kind (kind : string) : bool :=
  existsb (String.eqb kind) ["shell"; "command"; "execute"].

Definition is_script_kind (kind : string) : bool :=
  existsb (String.eqb kind) ["python"; "script"].

Definition handle (clauses : list (list pyclass * (exn -> task_result * list event)))
           (before : list event) (e : exn) : outcome task_result * list event :=
  match dispatch clauses e with
  | Some (r, evs) => (Returns r, before ++ evs)
  | None => (Raises e, before)
  end.

(** [_execute_task] on a task with typed fields: what it returns (or
    raises) and what it did to processes, in order.  The field reads of
    lines 75-77 and the progress print of line 79 cannot fail on such a
    task and are left out; [Raw._execute_task] has them, and
    [execute_task_refines] shows that the two agree on these tasks. *)
Definition _execute_task (w : os) (t : task) : outcome task_result * list event :=
  let action_type := action_type t in
  let action_data := task_data t in
  let description := action_description t in
  if is_shell_kind action_type then
    let cmd := default description (command action_data) in
    let dir := default (home w) (cwd action_data) in
    match popen w cmd dir with
    | Raises e => handle shell_clauses [CallPopen cmd dir] e
    | Returns p =>
        let '(output_lines, killed) := read_loop (stdout_lines p) [] in
        let evs := CallPopen cmd dir :: (if killed then [Kill] else []) in
        match wait p killed with
        | Raises e => handle shell_clauses evs e
        | Returns rc =>
            let output := join output_lines in
            (Returns (TaskResult (status_of rc)
                        (JObj [("exit_code", JNum rc); ("output", JStr output)])),
             evs)
        end
    end
  else if is_script_kind action_type then
    let script := default EmptyString (script action_data) in
    if String.eqb script EmptyString then
      (Returns (error_result "No script provided"), [])
    else
      let dir := default (home w) (cwd action_data) in
      match run_python w script dir with
      | Raises e => handle script_clauses [CallRun script dir] e
      | Returns result =>
          (Returns (TaskResult (status_of (run_returncode result))
                      (JObj [("exit_code", JNum (run_returncode result));
                             ("stdout", JStr (substring 0 (Z.to_nat 20000) (run_stdout result)));
                             ("stderr", JStr (substring 0 (Z.to_nat 5000) (run_stderr result)))])),
           [CallRun script dir])
      end
  else
    (Returns (TaskResult "completed"
                (JObj [("message", JStr ("Acknowledged task type: " +:+ action_type));
                       ("description", JStr description)])),
     []).

End Agents.
Export Agents.

(* ===================================================================== *)
(** ** Runs of the queue, and the inputs of the examples *)
(* ===================================================================== *)

Module Scenarios.

(** The last [n] elements of a list. *)
Definition last_n {A : Type} (n : nat) (l : list A) : list A :=
  drop (length l - n)%nat l.

(** One call [enqueue(endpoint, data, method)] made at time [op_now]. *)
Record enqueue_op : Type := EnqueueOp {
  op_now : string;
  op_endpoint : string;
  op_data : json;
  op_method : string
}.

Definition entry_of (op : enqueue_op) : entry :=
  Entry (op_endpoint op) (op_data op) (op_method op) (op_now op).

Definition enqueue_call (d : disk) (op : enqueue_op) : disk :=
  enqueue (op_now op) (op_endpoint op) (op_data op) (op_method op) d.

(** A sequence of [enqueue] calls, one after the other. *)
Definition enqueue_all (ops : list enqueue_op) (d : disk) : disk :=
  fold_left enqueue_call ops d.

(** A network that answers the [pos]-th send of a replay with the
    [pos]-th element of [answers], and lets later sends through. *)
Definition scripted (answers : list (outcome unit)) : nat -> request -> outcome unit :=
  fun pos _ => nth pos answers (Returns tt).

Definition report (task_id now : string) : entry :=
  Entry "agent-task-result"
        (JObj [("task_id", JStr task_id); ("result_status", JStr "completed")])
        "POST" now.

Definition report_a : entry := report "task-a" "2024-05-01T10:00:00+00:00".
Definition report_b : entry := report "task-b" "2024-05-01T10:00:01+00:00".

Definition many_ops (n : nat) : list enqueue_op :=
  repeat (EnqueueOp "2024-05-01T10:00:00+00:00" "agent-task-result"
                    (JObj [("task_id", JStr "task-a")]) "POST") n.

(** A marker parser for the examples: a plain run of decimal digits, the
    form [_write_pid] writes. *)
Definition digit_of (c : ascii) : option Z :=
  let n := Z.of_nat (nat_of_ascii c) in
  if (48 <=? n) && (n <=? 57) then Some (n - 48) else None.

Fixpoint digits (s : string) (acc : Z) : option Z :=
  match s with
  | EmptyString => Some acc
  | String c s' =>
      match digit_of c with
      | Some k => digits s' (10 * acc + k)
      | None => None
      end
  end.

Definition decimal (s : string) : option Z :=
  match s with
  | EmptyString => None
  | _ => digits s 0
  end.

(** A process table in which only process 1 exists, owned by another
    user, and one in which process 4242 is the caller's own. *)
Definition kill_foreign_init (pid : Z) : outcome unit :=
  if pid =? 1 then Raises (Exn C_PermissionError 1 "Operation not permitted")
  else Raises (Exn C_ProcessLookupError 3 "No such process").

Definition kill_own_worker (pid : Z) : outcome unit :=
  if pid =? 4242 then Returns tt
  else Raises (Exn C_ProcessLookupError 3 "No such process").

(** [sleep 600]: no output, end of file and exit after 600 seconds. *)
Definition sleeper : process := Process [] 600 600 0 (-9).

(** A line of 50001 characters. *)
Definition long_line : string :=
  String.concat EmptyString (repeat "aaaaaaaaa" (Z.to_nat 5555)) +:+ "aaaaaa".

Definition os_with (p : process) : os :=
  OS (fun _ _ => Returns p)
     (fun _ _ => Returns (Completed 0 EmptyString EmptyString))
     "/home/agent".

Definition shell_task (cmd : string) : task :=
  Task "shell" (ActionData (Some cmd) None None) cmd.

End Scenarios.
Export Scenarios.

(* ===================================================================== *)
(** ** [agents.py]: plain requests, marker files, the [stop] and [start]
       actions and the poll cycle of the worker *)
(* ===================================================================== *)

Module Supervisor.

(** *** [_api_request] *)

(** [d[k] = v] on a dict given by its pairs: the value is replaced where
    the key is, a new key goes last. *)
Fixpoint dict_set (k v : string) (fields : list (string * string))
  : list (string * string) :=
  match fields with
  | [] => [(k, v)]
  | (k', v') :: rest =>
      if String.eqb k k' then (k', v) :: rest else (k', v') :: dict_set k v rest
  end.

(** The [headers] dict literal of [_api_request]; its last key is the
    value of [token_header]. *)
Definition api_headers (anon_key token_header api_key : string)
  : list (string * string) :=
  dict_set token_header api_key
    [ ("Content-Type", "application/json");
      ("apikey", anon_key);
      ("Authorization", "Bearer " +:+ anon_key) ].

(** The two clauses of [_api_request]'s [try], in source order: whether
    the handler reads the body of the error. *)
Definition api_clauses : list (list pyclass * (exn -> bool)) :=
  [ ([C_HTTPError], fun _ => true);
    ([C_Exception], fun _ => false) ].

Section ApiRequest.

(** [urllib.request.Request(url, ...)]: it raises [ValueError] for a URL
    without a scheme, as with an empty [backend]. *)
Variable construct : request -> outcome unit.

(** [e.read().decode() if e.fp else ...] in the handler of an HTTP
    error: the text of the body, or what reading or decoding it
    raises. *)
Variable read_body : exn -> outcome string.

(** [_api_request].  The request is built before the [try], so what the
    constructor raises leaves the function; so does what reading the body
    of an HTTP error raises, inside the handler.  [net req] is what the
    body of the [try] does. *)
Definition _api_request (endpoint : string) (data : json) (method : string)
           (api_key backend anon_key token_header : string)
           (net : request -> outcome json) : outcome (option json) :=
  let url := make_url backend endpoint in
  let headers := api_headers anon_key token_header api_key in
  let req := if truthy data
             then Request url (Some data) headers method
             else Request url None headers method in
  match construct req with
  | Raises e => Raises e
  | Returns _ =>
      match net req with
      | Returns response => Returns (Some response)
      | Raises e =>
          match dispatch api_clauses e with
          | Some true =>
              match read_body e with
              | Returns _ => Returns None
              | Raises e' => Raises e'
              end
          | Some false => Returns None
          | None => Raises e
          end
      end
  end.

End ApiRequest.

(** *** Marker files *)

(** [str(n)] for an integer. *)
Definition py_str (n : Z) : string := NilZero.string_of_int (Z.to_int n).

(** [_write_pid]; [getpid] is the reading of [os.getpid()]. *)
Definition _write_pid (getpid : Z) (agent_id : string) (dir : agents_dir)
  : agents_dir :=
  <[agent_id := py_str getpid]> dir.

Definition _remove_pid (agent_id : string) (dir : agents_dir) : agents_dir :=
  match dir !! agent_id with
  | Some _ => delete agent_id dir
  | None => dir
  end.

(** *** [handle_agents]: the [stop] and [start] actions *)

(** The two clauses of the [stop] action's [try]: whether the handler
    unlinks the marker. *)
Definition stop_clauses : list (list pyclass * (exn -> bool)) :=
  [ ([C_ProcessLookupError], fun _ => true);
    ([C_Exception], fun _ => false) ].

(** What the [start] action does once the bridge key is there. *)
Inductive start_decision : Type :=
| AlreadyRunning                 (* [return] *)
| MissingToken                   (* [sys.exit(1)] *)
| StartWorker (token : string).  (* [_agent_worker(...)] is entered *)

Section Actions.

(** [int(text.strip())], as for [_is_agent_running]. *)
Variable py_int : string -> option Z.

(** [os.kill(pid, signal.SIGTERM)] and [os.kill(pid, 0)]. *)
Variable os_kill_term : Z -> outcome unit.
Variable os_kill : Z -> outcome unit.

(** The [try] body of the [stop] action: the process identifier
    [SIGTERM] was delivered to. *)
Definition send_stop (text : string) : outcome Z :=
  match py_int text with
  | None => Raises (Exn C_ValueError 0 "invalid literal for int()")
  | Some pid =>
      match os_kill_term pid with
      | Returns _ => Returns pid
      | Raises e => Raises e
      end
  end.

(** The [stop] action: the directory afterwards, the process identifiers
    [SIGTERM] was delivered to, and whether the action returned.  (The
    one-second [time.sleep] before the marker is unlinked is left out.) *)
Definition stop_agent (agent_id : string) (dir : agents_dir)
  : (agents_dir * list Z) * outcome unit :=
  match dir !! agent_id with
  | None => ((dir, []), Returns tt)
  | Some text =>
      match send_stop text with
      | Returns pid => ((delete agent_id dir, [pid]), Returns tt)
      | Raises e =>
          match dispatch stop_clauses e with
          | Some true => ((delete agent_id dir, []), Returns tt)
          | Some false => ((dir, []), Returns tt)
          | None => ((dir, []), Raises e)
          end
      end
  end.

(** The [start] action; [connection_token] is [cfg.get("connection_token")],
    [None] when the key is absent.  An exception leaving
    [_is_agent_running] leaves the action too. *)
Definition start_agent (agent_id : string) (connection_token : option string)
           (dir : agents_dir) : agents_dir * outcome start_decision :=
  match _is_agent_running py_int os_kill agent_id dir with
  | (dir', Raises e) => (dir', Raises e)
  | (dir', Returns true) => (dir', Returns AlreadyRunning)
  | (dir', Returns false) =>
      match connection_token with
      | None => (dir', Returns MissingToken)
      | Some token =>
          if String.eqb token EmptyString then (dir', Returns MissingToken)
          else (dir', Returns (StartWorker token))
      end
  end.

End Actions.

(** *** [_agent_worker]: one poll cycle *)

Definition BACKOFF_CEILING : Z := 60.
Definition ERROR_PAUSE : Z := 5.

Definition poll_request (backend anon_key connection_token : string) : request :=
  Request (backend +:+ "/functions/v1/agent-task-queue")
          (Some (JObj []))
          [ ("Content-Type", "application/json");
            ("apikey", anon_key);
            ("Authorization", "Bearer " +:+ anon_key);
            ("x-connection-token", connection_token) ]
          "POST".

(** [time.sleep(seconds)], in whole seconds: the time slept, or the
    [ValueError] a negative length raises. *)
Definition py_sleep (seconds : Z) : outcome Z :=
  if seconds <? 0
  then Raises (Exn C_ValueError 0 "sleep length must be non-negative")
  else Returns seconds.

(** The [data] of a result report. *)
Definition report_data (task_id : string) (r : task_result) : json :=
  JObj [ ("task_id", JStr task_id);
         ("result_status", JStr (result_status r));
         ("result_data", result_data r) ].

(** What one pass of the [while] body leaves behind. *)
Record cycle : Type := Cycle {
  errors_after : Z;              (* [consecutive_errors] *)
  disk_after : disk;             (* the queue file *)
  events : list event;           (* process calls of the executor *)
  reports : list request;        (* report requests sent, in order *)
  slept : list Z                 (* lengths of the [time.sleep] calls made *)
}.

(** The two clauses of the poll's [try], in source order. *)
Inductive poll_action : Type :=
| Backoff   (* count the failure, sleep the growing delay, [continue] *)
| Pause.    (* sleep [poll_interval], [continue] *)

Definition poll_clauses : list (list pyclass * (exn -> poll_action)) :=
  [ ([C_URLError; C_OSError], fun _ => Backoff);
    ([C_HTTPError], fun _ => Pause) ].

(** The clause of the outer [try] that is modelled ([KeyboardInterrupt] is
    not an [Exception] and is left out). *)
Definition worker_clauses : list (list pyclass * (exn -> unit)) :=
  [ ([C_Exception], fun _ => tt) ].

(** The [for task in tasks] loop on a batch of typed tasks, each with an
    [id] that is a string, so that the status print after a report cannot
    fail; [clock i] and [net i] are the clock reading and the network at
    the [i]-th report of the cycle, [i] counting the reports already sent.
    [Raw.run_tasks] below is the loop on the response as decoded. *)
Fixpoint run_tasks (w : os) (connection_token backend anon_key : string)
         (clock : nat -> string) (net : nat -> request -> outcome json)
         (tasks : list (string * task))
         (d : disk) (evs : list event) (sent : list request)
  : (disk * list event * list request) * outcome unit :=
  match tasks with
  | [] => ((d, evs, sent), Returns tt)
  | (task_id, t) :: rest =>
      match _execute_task w t with
      | (Raises e, ev) => ((d, evs ++ ev, sent), Raises e)
      | (Returns exec_result, ev) =>
          let i := length sent in
          let payload := report_data task_id exec_result in
          let req := build_request "agent-task-result" payload "POST"
                                   connection_token backend anon_key in
          match resilient_request (clock i) "agent-task-result" payload "POST"
                                  connection_token backend anon_key (net i) d with
          | (d', Raises e) => ((d', evs ++ ev, sent ++ [req]), Raises e)
          | (d', Returns _) =>
              run_tasks w connection_token backend anon_key clock net rest
                        d' (evs ++ ev) (sent ++ [req])
          end
      end
  end.

(** The handler of the outer [try]: [time.sleep(5)]. *)
Definition recover (e : exn) (c : cycle) : outcome cycle :=
  match dispatch worker_clauses e with
  | Some _ =>
      Returns (Cycle (errors_after c) (disk_after c) (events c) (reports c)
                     (slept c ++ [ERROR_PAUSE]))
  | None => Raises e
  end.

(** A [time.sleep] at the end of a path through the body. *)
Definition sleep_then (seconds : Z) (c : cycle) : outcome cycle :=
  match py_sleep seconds with
  | Returns s =>
      Returns (Cycle (errors_after c) (disk_after c) (events c) (reports c)
                     (slept c ++ [s]))
  | Raises e => recover e c
  end.

(** One pass of the [while running] body.  [poll req] is what the poll's
    [try] body does: it returns the tasks of the response, or raises.
    The messages of the response are only printed.  [Raises]: an
    exception leaves the loop. *)
Definition worker_cycle (w : os) (poll_interval : Z)
           (connection_token backend anon_key : string)
           (poll : request -> outcome (list (string * task)))
           (clock : nat -> string) (net : nat -> request -> outcome json)
           (consecutive_errors : Z) (d : disk) : outcome cycle :=
  match poll (poll_request backend anon_key connection_token) with
  | Raises e =>
      match dispatch poll_clauses e with
      | Some Backoff =>
          let consecutive_errors := consecutive_errors + 1 in
          sleep_then (Z.min (poll_interval * consecutive_errors) BACKOFF_CEILING)
                     (Cycle consecutive_errors d [] [] [])
      | Some Pause =>
          sleep_then poll_interval (Cycle consecutive_errors d [] [] [])
      | None => recover e (Cycle consecutive_errors d [] [] [])
      end
  | Returns tasks =>
      let consecutive_errors := 0 in
      match run_tasks w connection_token backend anon_key clock net tasks d [] [] with
      | ((d', evs, sent), Raises e) =>
          recover e (Cycle consecutive_errors d' evs sent [])
      | ((d', evs, sent), Returns _) =>
          sleep_then poll_interval (Cycle consecutive_errors d' evs sent [])
      end
  end.

(** What one pass of the body is given. *)
Record cycle_input : Type := CycleInput {
  in_poll : request -> outcome (list (string * task));
  in_clock : nat -> string;
  in_net : nat -> request -> outcome json
}.

(** The passes of the [while running] loop made before the stop flag is
    seen, one input each: the counter and the queue file carried from pass
    to pass, the sleeps of all passes in order. *)
Fixpoint worker_loop (w : os) (poll_interval : Z)
         (connection_token backend anon_key : string)
         (inputs : list cycle_input) (consecutive_errors : Z) (d : disk)
         (sleeps : list Z) : outcome (Z * disk * list Z) :=
  match inputs with
  | [] => Returns (consecutive_errors, d, sleeps)
  | i :: rest =>
      match worker_cycle w poll_interval connection_token backend anon_key
                         (in_poll i) (in_clock i) (in_net i)
                         consecutive_errors d with
      | Raises e => Raises e
      | Returns c =>
          worker_loop w poll_interval connection_token backend anon_key rest
                      (errors_after c) (disk_after c) (sleeps ++ slept c)
      end
  end.

(** [_agent_worker]: the marker is written, the loop runs from a counter
    of zero, and the [finally] clause removes the marker whether the loop
    ended or an exception left it. *)
Definition _agent_worker (getpid : Z) (w : os) (agent_id : string)
           (connection_token backend anon_key : string) (poll_interval : Z)
           (inputs : list cycle_input) (dir : agents_dir) (d : disk)
  : agents_dir * outcome (Z * disk * list Z) :=
  let dir := _write_pid getpid agent_id dir in
  let run := worker_loop w poll_interval connection_token backend anon_key
                         inputs 0 d [] in
  (_remove_pid agent_id dir, run).

End Supervisor.
Export Supervisor.

(* ===================================================================== *)
(** ** Further runs and inputs *)
(* ===================================================================== *)

Module Examples.

(** A backend that accepts every replayed request. *)
Definition accepting : nat -> request -> outcome unit := fun _ _ => Returns tt.

(** The entries of [todo], met from position [pos] on, whose send
    raises. *)
Fixpoint raising (api_key backend anon_key : string)
         (net : nat -> request -> outcome unit) (pos : nat) (todo : list entry)
  : list entry :=
  match todo with
  | [] => []
  | e :: rest =>
      match net pos (replay_request api_key backend anon_key e) with
      | Returns _ => raising api_key backend anon_key net (S pos) rest
      | Raises _ => e :: raising api_key backend anon_key net (S pos) rest
      end
  end.

(** The number of entries of [todo], met from position [pos] on, whose
    send returns. *)
Fixpoint delivered (api_key backend anon_key : string)
         (net : nat -> request -> outcome unit) (pos : nat) (todo : list entry)
  : nat :=
  match todo with
  | [] => 0%nat
  | e :: rest =>
      match net pos (replay_request api_key backend anon_key e) with
      | Returns _ => S (delivered api_key backend anon_key net (S pos) rest)
      | Raises _ => delivered api_key backend anon_key net (S pos) rest
      end
  end.

(** [os.kill(pid, signal.SIGTERM)] where only process 4242 exists and is
    the caller's own. *)
Definition term_own_worker (pid : Z) : outcome unit :=
  if pid =? 4242 then Returns tt
  else Raises (Exn C_ProcessLookupError 3 "No such process").

(** A response body that does not decode as JSON. *)
Definition decode_error : exn := Exn C_ValueError 0 "Expecting value".

(** The number of [Popen] and [run] calls among the events. *)
Definition spawn_calls (evs : list event) : nat :=
  length (List.filter (fun ev => match ev with
                            | CallPopen _ _ | CallRun _ _ => true
                            | Kill => false
                            end) evs).


(** An operating system whose interpreter runs give [result]. *)
Definition os_running (result : completed) : os :=
  OS (fun _ _ => Raises (Exn C_Other 2 "No such file or directory"))
     (fun _ _ => Returns result)
     "/home/agent".

Definition script_task (src : option string) : task :=
  Task "python" (ActionData None None src) "run a script".

(** The delay slept after the [k]-th consecutive poll failure. *)
Definition backoff (poll_interval : Z) (k : nat) : Z :=
  Z.min (poll_interval * Z.of_nat k) BACKOFF_CEILING.

(** Passes of the loop: the backend answers the poll with HTTP 503; the
    backend cannot be reached. *)
Definition pass_unavailable : cycle_input :=
  CycleInput (fun _ => Raises (http_error 503))
             (fun _ => "2024-05-01T10:00:00+00:00")
             (fun _ _ => Raises url_error).

Definition pass_unreachable : cycle_input :=
  CycleInput (fun _ => Raises url_error)
             (fun _ => "2024-05-01T10:00:00+00:00")
             (fun _ _ => Raises url_error).


End Examples.
Export Examples.

(* ===================================================================== *)
(** ** [agents.py] on values as they are decoded

    [Agents._execute_task] and [Supervisor.run_tasks] above take tasks
    whose fields have the types of the task data model, and processes
    whose output is a list of decoded lines.  The definitions of this
    module take the task as the JSON value the poll response holds and
    the process as the sequence of results of [readline]; every field
    read, the progress print and every [readline] can fail the way it
    does in Python.  [execute_task_refines] relates the two. *)
(* ===================================================================== *)

Module Raw.

(** A call returns, raises, or never comes back. *)
Inductive run (A : Type) : Type :=
| Ends (o : outcome A)
| Hangs.
Arguments Ends {A} o.
Arguments Hangs {A}.

(** [AttributeError] and [TypeError] are plain subclasses of
    [Exception]. *)
Definition attribute_error : exn := Exn C_Other 0 "object has no attribute 'get'".
Definition not_subscriptable : exn := Exn C_Other 0 "object is not subscriptable".
Definition not_iterable : exn := Exn C_Other 0 "object is not iterable".

(** [v.get(k, dflt)]: only a dict has [get]. *)
Definition py_get (v : json) (k : string) (dflt : json) : outcome json :=
  match v with
  | JObj fields => Returns (default dflt (assoc k fields))
  | _ => Raises attribute_error
  end.

(** [v or dflt]. *)
Definition py_or (v dflt : json) : json := if truthy v then v else dflt.

(** [v[:n]] and [len(v)] work on strings and lists. *)
Definition sliceable (v : json) : bool :=
  match v with
  | JStr _ | JArr _ => true
  | _ => false
  end.

Definition py_slice (v : json) : outcome unit :=
  if sliceable v then Returns tt else Raises not_subscriptable.

(** [v in (k1, ..., kn)] for string constants: only a string equals
    one. *)
Definition kind_in (kinds : list string) (v : json) : bool :=
  match v with
  | JStr s => existsb (String.eqb s) kinds
  | _ => false
  end.

(** [for x in v]: the items of a list, the characters of a string, the
    keys of a dict; nothing else can be iterated. *)
Definition py_iter (v : json) : outcome (list json) :=
  match v with
  | JArr items => Returns items
  | JStr s => Returns (map (fun c => JStr (String c EmptyString)) (list_ascii_of_string s))
  | JObj fields => Returns (map (fun kv => JStr (fst kv)) fields)
  | _ => Raises not_iterable
  end.

(** *** The executor *)

(** One call of [process.stdout.readline()]: a decoded line (the empty
    string at end of file), an exception (undecodable bytes under
    [text=True]), or no return at all (output that neither ends nor
    reaches a line end). *)
Inductive read : Type :=
| Line (s : string)
| ReadRaises (e : exn)
| Stalls.

(** A spawned shell process: the results of the successive [readline]
    calls (end of file once they are used up), and the times and statuses
    of [Agents.process]. *)
Record process : Type := Process {
  reads : list read;
  eof_at : Z;
  exit_at : Z;
  returncode : Z;
  returncode_killed : Z
}.

(** [Popen] and [subprocess.run] are handed whatever values the task
    holds. *)
Record os : Type := OS {
  popen : json -> json -> outcome process;
  run_python : json -> json -> outcome completed;
  home : string
}.

Inductive event : Type :=
| CallPopen (cmd dir : json)
| CallRun (src dir : json)
| Kill.

(** How the read loop is left. *)
Inductive loop_end : Type :=
| AtEof                  (* [readline] returned the empty string *)
| Truncated              (* ceiling passed: marker appended, [kill], [break] *)
| Raised (e : exn)       (* [readline] raised *)
| Stalled.               (* [readline] does not return *)

(** The [for line in iter(process.stdout.readline, ...)] loop. *)
Fixpoint read_loop (pending : list read) (output_lines : list string)
  : list string * loop_end :=
  match pending with
  | [] => (output_lines, AtEof)
  | Line line :: rest =>
      if String.eqb line EmptyString then (output_lines, AtEof)
      else
        let output_lines := output_lines ++ [line] in
        if OUTPUT_CEILING <? total_len output_lines
        then (output_lines ++ [truncation_marker], Truncated)
        else read_loop rest output_lines
  | ReadRaises e :: _ => (output_lines, Raised e)
  | Stalls :: _ => (output_lines, Stalled)
  end.

(** [process.wait(timeout=300)] after the loop. *)
Definition wait (p : process) (killed : bool) : outcome Z :=
  if killed then Returns (returncode_killed p)
  else if exit_at p <=? eof_at p + WAIT_TIMEOUT then Returns (returncode p)
  else Raises (Exn C_TimeoutExpired 0 "timed out after 300 seconds").

Definition shell_clauses : list (list pyclass * (exn -> task_result * list event)) :=
  [ ([C_TimeoutExpired], fun _ => (error_result "Timed out (5 min)", [Kill]));
    ([C_Exception], fun e => (error_result (exn_str e), [])) ].

Definition script_clauses : list (list pyclass * (exn -> task_result * list event)) :=
  [ ([C_Exception], fun e => (error_result (exn_str e), [])) ].

Definition handle (clauses : list (list pyclass * (exn -> task_result * list event)))
           (before : list event) (e : exn) : run task_result * list event :=
  match dispatch clauses e with
  | Some (r, evs) => (Ends (Returns r), before ++ evs)
  | None => (Ends (Raises e), before)
  end.

Section RawExecutor.

(** [str(v)] for a value that is not a string, as an f-string renders
    it. *)
Variable py_repr : json -> string.

Definition py_format (v : json) : string :=
  match v with
  | JStr s => s
  | _ => py_repr v
  end.

(** Lines 82-107: the shell branch.  The first [get] is outside the
    [try]. *)
Definition shell_branch (w : os) (action_data description : json)
  : run task_result * list event :=
  match py_get action_data "command" description with
  | Raises e => (Ends (Raises e), [])
  | Returns cmd =>
      match py_get action_data "cwd" (JStr (home w)) with
      | Raises e => handle shell_clauses [] e
      | Returns dir =>
          match popen w cmd dir with
          | Raises e => handle shell_clauses [CallPopen cmd dir] e
          | Returns p =>
              match read_loop (reads p) [] with
              | (_, Stalled) => (Hangs, [CallPopen cmd dir])
              | (_, Raised e) => handle shell_clauses [CallPopen cmd dir] e
              | (output_lines, AtEof) =>
                  match wait p false with
                  | Raises e => handle shell_clauses [CallPopen cmd dir] e
                  | Returns rc =>
                      (Ends (Returns (TaskResult (status_of rc)
                                        (JObj [("exit_code", JNum rc);
                                               ("output", JStr (join output_lines))]))),
                       [CallPopen cmd dir])
                  end
              | (output_lines, Truncated) =>
                  match wait p true with
                  | Raises e => handle shell_clauses [CallPopen cmd dir; Kill] e
                  | Returns rc =>
                      (Ends (Returns (TaskResult (status_of rc)
                                        (JObj [("exit_code", JNum rc);
                                               ("output", JStr (join output_lines))]))),
                       [CallPopen cmd dir; Kill])
                  end
              end
          end
      end
  end.

(** Lines 110-128: the script branch.  The first [get] is outside the
    [try]. *)
Definition script_branch (w : os) (action_data : json)
  : run task_result * list event :=
  match py_get action_data "script" (JStr EmptyString) with
  | Raises e => (Ends (Raises e), [])
  | Returns script =>
      if truthy script then
        match py_get action_data "cwd" (JStr (home w)) with
        | Raises e => handle script_clauses [] e
        | Returns dir =>
            match run_python w script dir with
            | Raises e => handle script_clauses [CallRun script dir] e
            | Returns result =>
                (Ends (Returns
                         (TaskResult (status_of (run_returncode result))
                            (JObj [("exit_code", JNum (run_returncode result));
                                   ("stdout", JStr (substring 0 (Z.to_nat 20000)
                                                              (run_stdout result)));
                                   ("stderr", JStr (substring 0 (Z.to_nat 5000)
                                                              (run_stderr result)))]))),
                 [CallRun script dir])
            end
        end
      else (Ends (Returns (error_result "No script provided")), [])
  end.

(** [_execute_task], from line 75 on: the three field reads, the progress
    print of line 79 (which slices the description and takes its
    length), then the dispatch on the kind. *)
Definition _execute_task (w : os) (task : json) : run task_result * list event :=
  match py_get task "action_type" (JStr EmptyString) with
  | Raises e => (Ends (Raises e), [])
  | Returns action_type =>
      match py_get task "action_data" JNull with
      | Raises e => (Ends (Raises e), [])
      | Returns found =>
          let action_data := py_or found (JObj []) in
          match py_get task "action_description" (JStr EmptyString) with
          | Raises e => (Ends (Raises e), [])
          | Returns description =>
              match py_slice description with
              | Raises e => (Ends (Raises e), [])
              | Returns _ =>
                  if kind_in ["shell"; "command"; "execute"] action_type then
                    shell_branch w action_data description
                  else if kind_in ["python"; "script"] action_type then
                    script_branch w action_data
                  else
                    (Ends (Returns
                             (TaskResult "completed"
                                (JObj [("message",
                                        JStr ("Acknowledged task type: "
                                              +:+ py_format action_type));
                                       ("description", description)]))),
                     [])
              end
          end
      end
  end.

End RawExecutor.

(** The fields [_execute_task] reads from a task that is a dict. *)
Definition task_kind (fields : list (string * json)) : json :=
  default (JStr EmptyString) (assoc "action_type" fields).

Definition task_data (fields : list (string * json)) : json :=
  py_or (default JNull (assoc "action_data" fields)) (JObj []).

Definition task_description (fields : list (string * json)) : json :=
  default (JStr EmptyString) (assoc "action_description" fields).

(** *** One poll cycle of the worker *)

(** The [data] of a result report; the task's [id] goes in as it is. *)
Definition report_data (task_id : json) (r : task_result) : json :=
  JObj [ ("task_id", task_id);
         ("result_status", JStr (result_status r));
         ("result_data", result_data r) ].

Record cycle : Type := Cycle {
  errors_after : Z;
  disk_after : disk;
  events : list event;
  reports : list request;
  slept : list Z
}.

(** The print of one message: both fields are sliced. *)
Definition show_message (msg : json) : outcome unit :=
  match py_get msg "from_agent_id" (JStr "?") with
  | Raises e => Raises e
  | Returns sender =>
      match py_slice sender with
      | Raises e => Raises e
      | Returns _ =>
          match py_get msg "content" (JStr EmptyString) with
          | Raises e => Raises e
          | Returns content => py_slice content
          end
      end
  end.

Fixpoint show_messages (msgs : list json) : outcome unit :=
  match msgs with
  | [] => Returns tt
  | msg :: rest =>
      match show_message msg with
      | Raises e => Raises e
      | Returns _ => show_messages rest
      end
  end.

Definition recover (e : exn) (c : cycle) : run cycle :=
  match dispatch worker_clauses e with
  | Some _ =>
      Ends (Returns (Cycle (errors_after c) (disk_after c) (events c) (reports c)
                           (slept c ++ [ERROR_PAUSE])))
  | None => Ends (Raises e)
  end.

Definition sleep_then (seconds : Z) (c : cycle) : run cycle :=
  match py_sleep seconds with
  | Returns s =>
      Ends (Returns (Cycle (errors_after c) (disk_after c) (events c) (reports c)
                           (slept c ++ [s])))
  | Raises e => recover e c
  end.

Section RawCycle.

Variable py_repr : json -> string.
Variable w : os.
Variables connection_token backend anon_key : string.

(** The [for task in tasks] loop on the items of the response: the [id]
    is read, the task executed, the result reported, and the status line
    printed, which slices the [id]. *)
Fixpoint run_tasks (clock : nat -> string) (net : nat -> request -> outcome json)
         (tasks : list json) (d : disk) (evs : list event) (sent : list request)
  : (disk * list event * list request) * run unit :=
  match tasks with
  | [] => ((d, evs, sent), Ends (Returns tt))
  | task :: rest =>
      match py_get task "id" JNull with
      | Raises e => ((d, evs, sent), Ends (Raises e))
      | Returns task_id =>
          match _execute_task py_repr w task with
          | (Hangs, ev) => ((d, evs ++ ev, sent), Hangs)
          | (Ends (Raises e), ev) => ((d, evs ++ ev, sent), Ends (Raises e))
          | (Ends (Returns exec_result), ev) =>
              let i := length sent in
              let payload := report_data task_id exec_result in
              let req := build_request "agent-task-result" payload "POST"
                                       connection_token backend anon_key in
              match resilient_request (clock i) "agent-task-result" payload "POST"
                                      connection_token backend anon_key (net i) d with
              | (d', Raises e) => ((d', evs ++ ev, sent ++ [req]), Ends (Raises e))
              | (d', Returns _) =>
                  match py_slice task_id with
                  | Raises e => ((d', evs ++ ev, sent ++ [req]), Ends (Raises e))
                  | Returns _ =>
                      run_tasks clock net rest d' (evs ++ ev) (sent ++ [req])
                  end
              end
          end
      end
  end.

(** What follows a poll that returned [result]: the tasks, then the
    messages.  [Raises]: the exception reaches the outer [try]. *)
Definition handle_response (clock : nat -> string)
           (net : nat -> request -> outcome json) (result : json) (d : disk)
  : (disk * list event * list request) * run unit :=
  match py_get result "tasks" (JArr []) with
  | Raises e => ((d, [], []), Ends (Raises e))
  | Returns tasks_value =>
      match py_iter tasks_value with
      | Raises e => ((d, [], []), Ends (Raises e))
      | Returns tasks =>
          match run_tasks clock net tasks d [] [] with
          | (st, Hangs) => (st, Hangs)
          | (st, Ends (Raises e)) => (st, Ends (Raises e))
          | (st, Ends (Returns _)) =>
              match py_get result "messages" (JArr []) with
              | Raises e => (st, Ends (Raises e))
              | Returns messages_value =>
                  match py_iter messages_value with
                  | Raises e => (st, Ends (Raises e))
                  | Returns messages => (st, Ends (show_messages messages))
                  end
              end
          end
      end
  end.

(** One pass of the [while running] body; [poll req] is what the poll's
    [try] body does: it returns the decoded response, or raises. *)
Definition worker_cycle (poll_interval : Z)
           (poll : request -> outcome json)
           (clock : nat -> string) (net : nat -> request -> outcome json)
           (consecutive_errors : Z) (d : disk) : run cycle :=
  match poll (poll_request backend anon_key connection_token) with
  | Raises e =>
      match dispatch poll_clauses e with
      | Some Backoff =>
          let consecutive_errors := consecutive_errors + 1 in
          sleep_then (Z.min (poll_interval * consecutive_errors) BACKOFF_CEILING)
                     (Cycle consecutive_errors d [] [] [])
      | Some Pause =>
          sleep_then poll_interval (Cycle consecutive_errors d [] [] [])
      | None => recover e (Cycle consecutive_errors d [] [] [])
      end
  | Returns result =>
      let consecutive_errors := 0 in
      match handle_response clock net result d with
      | (_, Hangs) => Hangs
      | ((d', evs, sent), Ends (Raises e)) =>
          recover e (Cycle consecutive_errors d' evs sent [])
      | ((d', evs, sent), Ends (Returns _)) =>
          sleep_then poll_interval (Cycle consecutive_errors d' evs sent [])
      end
  end.

End RawCycle.

(** *** From the typed tasks and processes to the decoded ones *)

Definition encode_field (k : string) (v : option string) : list (string * json) :=
  match v with
  | Some s => [(k, JStr s)]
  | None => []
  end.

Definition encode_task (t : Agents.task) : json :=
  JObj [ ("action_type", JStr (Agents.action_type t));
         ("action_data",
          JObj (encode_field "command" (Agents.command (Agents.task_data t))
                ++ encode_field "cwd" (Agents.cwd (Agents.task_data t))
                ++ encode_field "script" (Agents.script (Agents.task_data t))));
         ("action_description", JStr (Agents.action_description t)) ].

Definition lift_process (p : Agents.process) : process :=
  Process (map Line (Agents.stdout_lines p)) (Agents.eof_at p) (Agents.exit_at p)
          (Agents.returncode p) (Agents.returncode_killed p).

Definition lift_outcome {A B : Type} (f : A -> B) (o : outcome A) : outcome B :=
  match o with
  | Returns a => Returns (f a)
  | Raises e => Raises e
  end.

(** An operating system that is handed strings only. *)
Definition lift_os (w : Agents.os) : os :=
  OS (fun cmd dir =>
        match cmd, dir with
        | JStr c, JStr d => lift_outcome lift_process (Agents.popen w c d)
        | _, _ => Raises not_subscriptable
        end)
     (fun src dir =>
        match src, dir with
        | JStr s, JStr d => Agents.run_python w s d
        | _, _ => Raises not_subscriptable
        end)
     (Agents.home w).

Definition lift_event (ev : Agents.event) : event :=
  match ev with
  | Agents.CallPopen c d => CallPopen (JStr c) (JStr d)
  | Agents.CallRun s d => CallRun (JStr s) (JStr d)
  | Agents.Kill => Kill
  end.

(** *** Inputs of the examples *)


(** The number of [Popen] and [run] calls among the events. *)
Definition spawn_calls (evs : list event) : nat :=
  length (List.filter (fun ev => match ev with
                                 | CallPopen _ _ | CallRun _ _ => true
                                 | Kill => false
                                 end) evs).






(** A process that prints one line of 50,001 characters, then more. *)
Definition chatty : process :=
  Process [Line long_line; Line "more"] 1 1 0 (-9).

Definition os_with (p : process) : os :=
  OS (fun _ _ => Returns p)
     (fun _ _ => Returns (Completed 0 EmptyString EmptyString))
     "/home/agent".

Definition shell_task (cmd : string) : list (string * json) :=
  [ ("id", JStr "task-a");
    ("action_type", JStr "shell");
    ("action_data", JObj [("command", JStr cmd)]);
    ("action_description", JStr cmd) ].


(** Python's [str] on the values met in the examples. *)
Definition repr_stub (v : json) : string :=
  match v with
  | JNull => "None"
  | JBool true => "True"
  | JBool false => "False"
  | JNum n => py_str n
  | _ => "..."
  end.



(** The [id] the loop reads from a task. *)
Definition task_id (task : json) : json :=
  match task with
  | JObj fields => default JNull (assoc "id" fields)
  | _ => JNull
  end.





End Raw.

(* ===================================================================== *)
(** ** Properties of the durable queue *)
(* ===================================================================== *)

Section QueueCapacity.

Lemma last_n_length {A : Type} (n : nat) (l : list A) :
  (length (last_n n l) <= n)%nat.
Proof. unfold last_n. rewrite length_drop. lia. Qed.

Lemma last_n_short {A : Type} (n : nat) (l : list A) :
  (length l <= n)%nat -> last_n n l = l.
Proof.
  intros Hle. unfold last_n.
  replace (length l - n)%nat with 0%nat by lia. reflexivity.
Qed.

(** Keeping the last [n] before appending changes nothing once the last
    [n] are taken again. *)
Lemma last_n_app_last_n {A : Type} (n : nat) (l l' : list A) :
  last_n n (last_n n l ++ l') = last_n n (l ++ l').
Proof.
  destruct (Nat.le_gt_cases (length l) n) as [Hle | Hgt].
  - rewrite (last_n_short n l Hle). reflexivity.
  - unfold last_n. rewrite !length_app, length_drop.
    rewrite !skipn_app, length_drop, drop_drop.
    f_equal; f_equal; lia.
Qed.

Lemma enqueue_load (now ep : string) (da : json) (m : string) (d : disk) :
  _load_queue (enqueue now ep da m d)
  = last_n MAX_QUEUE_SIZE (_load_queue d ++ [Entry ep da m now]).
Proof.
  unfold enqueue, _save_queue. cbn [_load_queue].
  destruct (Nat.ltb_spec MAX_QUEUE_SIZE (length (_load_queue d ++ [Entry ep da m now])))
    as [Hlt | Hge].
  - reflexivity.
  - symmetry. apply last_n_short. exact Hge.
Qed.

Lemma enqueue_all_snoc (ops : list enqueue_op) (op : enqueue_op) (d : disk) :
  enqueue_all (ops ++ [op]) d = enqueue_call (enqueue_all ops d) op.
Proof. unfold enqueue_all. rewrite fold_left_app. reflexivity. Qed.

Lemma enqueue_all_last_n (ops : list enqueue_op) (d : disk) :
  last_n MAX_QUEUE_SIZE (_load_queue (enqueue_all ops d))
  = last_n MAX_QUEUE_SIZE (_load_queue d ++ map entry_of ops).
Proof.
  revert d. induction ops as [| op ops IH]; intros d.
  - cbn. rewrite app_nil_r. reflexivity.
  - cbn [enqueue_all fold_left map]. fold (enqueue_all ops (enqueue_call d op)).
    rewrite IH. unfold enqueue_call. rewrite enqueue_load.
    rewrite last_n_app_last_n. rewrite <- app_assoc. reflexivity.
Qed.

Lemma enqueue_all_bounded (ops : list enqueue_op) (d : disk) :
  ops <> [] ->
  (length (_load_queue (enqueue_all ops d)) <= MAX_QUEUE_SIZE)%nat.
Proof.
  destruct ops as [| op ops' _] using rev_ind; [congruence |].
  intros _. rewrite enqueue_all_snoc. unfold enqueue_call.
  rewrite enqueue_load. apply last_n_length.
Qed.

End QueueCapacity.

(** C3.  After any non-empty sequence of [enqueue] calls, on whatever the
    queue file held before, the persisted queue has at most 500 entries and
    is exactly the last 500 of the old queue followed by the new entries, in
    that order; when the calls alone number 500 or more, it is the last 500
    of them. *)
Theorem enqueue_keeps_most_recent (ops : list enqueue_op) (d : disk) :
  ops <> [] ->
  (length (_load_queue (enqueue_all ops d)) <= 500)%nat
  /\ (exists queue, enqueue_all ops d = Some (Parsed queue))
  /\ _load_queue (enqueue_all ops d) = last_n 500 (_load_queue d ++ map entry_of ops)
  /\ ((500 <= length ops)%nat ->
      _load_queue (enqueue_all ops d) = last_n 500 (map entry_of ops)).
Proof.
  intros Hne.
  pose proof (enqueue_all_bounded ops d Hne) as Hlen.
  pose proof (enqueue_all_last_n ops d) as Hlast.
  rewrite (last_n_short _ _ Hlen) in Hlast.
  change MAX_QUEUE_SIZE with 500%nat in *.
  split; [exact Hlen |]. split; [| split; [exact Hlast |]].
  - clear Hlen Hlast. destruct ops as [| op ops' _] using rev_ind; [congruence |].
    rewrite enqueue_all_snoc. unfold enqueue_call, enqueue, _save_queue. eauto.
  - intros Hmany. rewrite Hlast. unfold last_n.
    rewrite length_app, skipn_app.
    assert (Hlm : length (map entry_of ops) = length ops) by apply length_map.
    rewrite (skipn_all2 (_load_queue d)) by lia.
    cbn [app]. f_equal. lia.
Qed.

(** A run of 501 calls on an absent file. *)
Lemma enqueue_keeps_most_recent_witness :
  many_ops 501 <> []
  /\ (length (_load_queue (enqueue_all (many_ops 501) None)) <= 500)%nat.
Proof.
  split; [discriminate |].
  apply (enqueue_keeps_most_recent (many_ops 501) None). discriminate.
Defined.

(* ===================================================================== *)
(** ** Properties of the replay *)
(* ===================================================================== *)

Section Replay.

Variables api_key backend anon_key : string.
Variable net : nat -> request -> outcome unit.

Local Abbreviation loop := (drain_loop api_key backend anon_key net).
Local Abbreviation request_of := (replay_request api_key backend anon_key).

(** An [HTTPError] is an [URLError]: the first clause of either [try]
    takes it, and the clause written for it is never reached. *)
Lemma http_error_halts_replay (e : exn) :
  isinstance e C_HTTPError = true -> dispatch drain_clauses e = Some Halt.
Proof. destruct e as [[] code msg]; cbn; intros H; congruence. Qed.

Lemma connectivity_failure_halts_replay (e : exn) :
  matches e [C_URLError; C_OSError] = true -> dispatch drain_clauses e = Some Halt.
Proof. intros H. cbn [dispatch drain_clauses]. rewrite H. reflexivity. Qed.

(** Entries that are delivered are counted and leave no trace in
    [remaining]. *)
Lemma drain_loop_delivered (queue mid : list entry) :
  forall (pos : nat) (rest remaining : list entry) (drained : nat),
    (forall j x, mid !! j = Some x ->
                 exists u, net (pos + j) (request_of x) = Returns u) ->
    loop queue pos (mid ++ rest) remaining drained
    = loop queue (pos + length mid) rest remaining (drained + length mid).
Proof.
  induction mid as [| x mid IH]; intros pos rest remaining drained Hok.
  - cbn. rewrite !Nat.add_0_r. reflexivity.
  - cbn [app drain_loop length].
    destruct (Hok 0%nat x eq_refl) as [u Hu]. rewrite Nat.add_0_r in Hu.
    rewrite Hu. rewrite IH.
    + f_equal; lia.
    + intros j y Hy. specialize (Hok (S j) y Hy).
      replace (S pos + j)%nat with (pos + S j)%nat by lia. exact Hok.
Qed.

(** [queue.index(entry)] is the entry's own position when no earlier
    entry equals it. *)
Lemma index_from_fresh (e : entry) (pre rest : list entry) :
  forall i0 : nat,
    Forall (fun x => entry_eq x e = false) pre ->
    index_from i0 (i0 + length pre) e (pre ++ e :: rest) = Some (i0 + length pre)%nat.
Proof.
  induction pre as [| x pre IH]; intros i0 Hfresh.
  - cbn. rewrite Nat.add_0_r, Nat.eqb_refl. reflexivity.
  - apply Forall_cons_1 in Hfresh as [Hx Hpre].
    cbn [app index_from length]. rewrite Hx.
    replace (i0 =? i0 + S (length pre))%nat with false
      by (symmetry; apply Nat.eqb_neq; lia).
    cbn [orb]. replace (i0 + S (length pre))%nat with (S i0 + length pre)%nat by lia.
    apply IH. exact Hpre.
Qed.

(** X3.  The replay of a queue whose first [length pre] entries are delivered
    and whose next entry meets a connectivity failure, when no delivered
    entry equals the failing one: the entries from the failing one on are
    saved, in order. *)
Lemma drain_halts_without_duplicate (pre rest : list entry) (e : entry) (x : exn) :
  (forall j y, pre !! j = Some y -> exists u, net j (request_of y) = Returns u) ->
  net (length pre) (request_of e) = Raises x ->
  matches x [C_URLError; C_OSError] = true ->
  Forall (fun y => entry_eq y e = false) pre ->
  try_drain_queue api_key backend anon_key net (Some (Parsed (pre ++ e :: rest)))
  = (Some (Parsed (e :: rest)), Returns tt).
Proof.
  intros Hok Hfail Hconn Hfresh.
  unfold try_drain_queue. cbn [_load_queue].
  destruct (pre ++ e :: rest) as [| q0 qs] eqn:Hq.
  { destruct pre; discriminate. }
  rewrite <- Hq.
  pose proof (drain_loop_delivered (pre ++ e :: rest) pre 0 (e :: rest) [] 0 Hok) as Hrun.
  rewrite Hrun. cbn [Nat.add drain_loop]. rewrite Hfail.
  rewrite (connectivity_failure_halts_replay x Hconn).
  pose proof (index_from_fresh e pre rest 0 Hfresh) as Hidx.
  cbn [Nat.add] in Hidx. unfold index. rewrite Hidx.
  assert (Hdrop : drop (S (length pre)) (pre ++ e :: rest) = rest).
  { replace (S (length pre)) with (length pre + 1)%nat by lia.
    rewrite <- drop_drop, drop_app_length. reflexivity. }
  rewrite Hdrop. reflexivity.
Qed.

End Replay.

(** C1.  A queue holding the same entry twice, the second copy meeting a
    connectivity failure after everything before it was delivered:
    [queue.index(entry)] finds the first copy, so the saved queue is the
    failing entry followed by everything after the FIRST copy.  The
    delivered [report_b] is queued again and the failing entry is there
    twice, where entries 3..end are [report_a] alone. *)
Theorem drain_duplicate_requeues_delivered :
  let queue := [report_a; report_b; report_a] in
  let net := scripted [Returns tt; Returns tt; Raises url_error] in
  try_drain_queue "key" "https://backend" "anon" net (Some (Parsed queue))
  = (Some (Parsed [report_a; report_b; report_a]), Returns tt)
  /\ drop 2 queue = [report_a].
Proof. split; reflexivity. Qed.

(** C4.  An HTTP error on the first of two entries, whatever its status
    code (404 and 503 alike): the first clause of the [try] takes it, the
    replay stops there and both entries stay queued; the second entry,
    which would have been delivered, is never sent. *)
Theorem drain_http_error_halts (code : Z) :
  let net := scripted [Raises (http_error code); Returns tt] in
  try_drain_queue "key" "https://backend" "anon" net
                  (Some (Parsed [report_a; report_b]))
  = (Some (Parsed [report_a; report_b]), Returns tt).
Proof. reflexivity. Qed.

(** C10, as stated: a replay does not overwrite a queue file that cannot
    be parsed. *)
Lemma drain_does_not_overwrite_unparsable :
  ~ (forall (raw : string) (net : nat -> request -> outcome unit),
        exists queue,
          fst (try_drain_queue "key" "https://backend" "anon" net
                               (Some (Unparsable raw)))
          = Some (Parsed queue)).
Proof.
  intros H. destruct (H "{not json" (scripted [])) as [queue Hq].
  cbn in Hq. discriminate.
Qed.

(** C10, amended.  A queue file that cannot be parsed loads as the empty
    list; the next [enqueue] replaces it by a queue holding the new entry
    alone; a replay returns at once and leaves the file as it is. *)
Theorem unparsable_queue_file (raw : string) :
  _load_queue (Some (Unparsable raw)) = []
  /\ (forall now ep da m,
         enqueue now ep da m (Some (Unparsable raw))
         = Some (Parsed [Entry ep da m now]))
  /\ (forall api_key backend anon_key net,
         try_drain_queue api_key backend anon_key net (Some (Unparsable raw))
         = (Some (Unparsable raw), Returns tt)).
Proof. repeat split. Qed.

(* ===================================================================== *)
(** ** Properties of the resilient client *)
(* ===================================================================== *)

Section Client.

Variables (now endpoint : string) (data : json) (method : string).
Variables api_key backend anon_key : string.
Variable net : request -> outcome json.
Variable d : disk.

Local Abbreviation call :=
  (resilient_request now endpoint data method api_key backend anon_key net d).
Local Abbreviation sent :=
  (build_request endpoint data method api_key backend anon_key).

(** Every modelled exception is an [Exception]. *)
Lemma every_exn_is_exception (e : exn) : matches e [C_Exception] = true.
Proof. destruct e as [[] code msg]; reflexivity. Qed.

(** Whatever is raised, one of the first and third clauses takes it, and
    both enqueue exactly when the payload is truthy. *)
Lemma request_clauses_decide (e : exn) :
  dispatch (request_clauses data) e = Some (truthy data).
Proof.
  cbn [dispatch request_clauses].
  destruct (matches e [C_URLError; C_OSError]) eqn:H1; [reflexivity |].
  destruct (matches e [C_HTTPError]) eqn:H2.
  - destruct e as [[] code msg]; cbn in H1, H2; discriminate.
  - rewrite every_exn_is_exception. reflexivity.
Qed.

Lemma resilient_request_on_failure (e : exn) :
  net sent = Raises e ->
  call = (if truthy data then enqueue now endpoint data method d else d,
          Returns None).
Proof.
  intros Hnet. unfold resilient_request. rewrite Hnet, request_clauses_decide.
  destruct (truthy data); reflexivity.
Qed.

Lemma resilient_request_on_success (response : json) :
  net sent = Returns response -> call = (d, Returns (Some response)).
Proof. intros Hnet. unfold resilient_request. rewrite Hnet. reflexivity. Qed.

(** No exception leaves [resilient_request]. *)
Lemma resilient_request_returns : exists r, snd call = Returns r.
Proof.
  destruct (net sent) as [response | e] eqn:Hnet.
  - rewrite (resilient_request_on_success response Hnet). eauto.
  - rewrite (resilient_request_on_failure e Hnet). eauto.
Qed.

End Client.

(** C2.  A request with a payload answered by an HTTP error, whatever the
    status code: the first clause of the [try] takes the error and the
    request is enqueued, for a 404 as for a 503. *)
Theorem client_error_with_payload_is_queued (code : Z) (now : string) :
  let data := JObj [("task_id", JStr "task-a")] in
  resilient_request now "agent-task-result" data "POST" "key" "https://backend" "anon"
                    (fun _ => Raises (http_error code)) None
  = (Some (Parsed [Entry "agent-task-result" data "POST" now]), Returns None).
Proof. reflexivity. Qed.

(** C9.  A payload that is present but falsy is treated as no payload:
    the request goes out without a body, the queue file is left as it is
    whatever the network does, and a failure returns [None]; the empty
    dict, the empty list, zero and the empty string are such payloads. *)
Theorem falsy_payload_is_no_payload
        (now endpoint : string) (data : json) (method : string)
        (api_key backend anon_key : string)
        (net : request -> outcome json) (d : disk) :
  truthy data = false ->
  build_request endpoint data method api_key backend anon_key
  = Request (make_url backend endpoint) None (make_headers anon_key api_key) method
  /\ resilient_request now endpoint data method api_key backend anon_key net d
     = (d, match net (Request (make_url backend endpoint) None
                              (make_headers anon_key api_key) method) with
           | Returns response => Returns (Some response)
           | Raises _ => Returns None
           end)
  /\ Forall (fun v => truthy v = false) [JObj []; JArr []; JNum 0; JStr EmptyString].
Proof.
  intros Hfalsy.
  assert (Hreq : build_request endpoint data method api_key backend anon_key
                 = Request (make_url backend endpoint) None
                           (make_headers anon_key api_key) method).
  { unfold build_request. rewrite Hfalsy. reflexivity. }
  split; [exact Hreq |]. split.
  - rewrite <- Hreq.
    destruct (net (build_request endpoint data method api_key backend anon_key))
      as [response | e] eqn:Hnet.
    + apply resilient_request_on_success. exact Hnet.
    + rewrite (resilient_request_on_failure _ _ _ _ _ _ _ _ _ e Hnet), Hfalsy.
      reflexivity.
  - repeat constructor.
Qed.

(** An empty dict as payload, the backend unreachable. *)
Lemma falsy_payload_is_no_payload_witness :
  truthy (JObj []) = false
  /\ resilient_request "2024-05-01T10:00:00+00:00" "agent-heartbeat" (JObj []) "POST"
                       "key" "https://backend" "anon"
                       (fun _ => Raises url_error) (Some (Parsed [report_a]))
     = (Some (Parsed [report_a]), Returns None).
Proof.
  split; [reflexivity |].
  apply (falsy_payload_is_no_payload
           "2024-05-01T10:00:00+00:00" "agent-heartbeat" (JObj []) "POST"
           "key" "https://backend" "anon"
           (fun _ => Raises url_error) (Some (Parsed [report_a]))).
  reflexivity.
Defined.

(* ===================================================================== *)
(** ** Properties of the task executor *)
(* ===================================================================== *)

Section Executor.




Lemma slen_nonneg (s : string) : 0 <= slen s.
Proof. unfold slen. lia. Qed.

Lemma total_len_app (xs ys : list string) :
  total_len (xs ++ ys) = total_len xs + total_len ys.
Proof.
  induction xs as [| x xs IH]; [reflexivity |].
  change (slen x + total_len (xs ++ ys) = (slen x + total_len xs) + total_len ys).
  rewrite IH. lia.
Qed.

Lemma total_len_cons (x : string) (xs : list string) :
  total_len (x :: xs) = slen x + total_len xs.
Proof. reflexivity. Qed.

Lemma total_len_nonneg (xs : list string) : 0 <= total_len xs.
Proof.
  induction xs as [| x xs IH]; [cbn; lia |].
  rewrite total_len_cons. pose proof (slen_nonneg x). lia.
Qed.

(** Output within the ceiling is collected whole and the process is left
    alone. *)
Lemma read_loop_within (pending : list string) :
  forall collected,
    total_len (collected ++ pending) <= OUTPUT_CEILING ->
    read_loop pending collected = (collected ++ pending, false).
Proof.
  induction pending as [| line rest IH]; intros collected Hle.
  - cbn. rewrite app_nil_r. reflexivity.
  - cbn [read_loop].
    assert (Hstep : total_len (collected ++ [line]) <= OUTPUT_CEILING).
    { rewrite !total_len_app in *. rewrite !total_len_cons in *.
      change (total_len []) with 0. pose proof (total_len_nonneg rest). lia. }
    destruct (Z.ltb_spec OUTPUT_CEILING (total_len (collected ++ [line]))); [lia |].
    rewrite IH; rewrite <- app_assoc; [reflexivity | exact Hle].
Qed.

(** X27.  The timeout of the shell branch runs from the end of the output: a
    process whose output stays within the ceiling and which exits no
    later than 300 seconds after its output ended is waited for to the
    end, however long it ran. *)
Lemma shell_waits_for_end_of_output (w : os) (t : task) (p : process) :
  is_shell_kind (action_type t) = true ->
  popen w (default (action_description t) (command (task_data t)))
          (default (home w) (cwd (task_data t))) = Returns p ->
  total_len (stdout_lines p) <= OUTPUT_CEILING ->
  exit_at p <= eof_at p + WAIT_TIMEOUT ->
  _execute_task w t
  = (Returns (TaskResult (status_of (returncode p))
                (JObj [("exit_code", JNum (returncode p));
                       ("output", JStr (join (stdout_lines p)))])),
     [CallPopen (default (action_description t) (command (task_data t)))
                (default (home w) (cwd (task_data t)))]).
Proof.
  intros Hkind Hspawn Hquiet Hexit.
  unfold _execute_task. rewrite Hkind, Hspawn.
  rewrite (read_loop_within (stdout_lines p) [] Hquiet).
  unfold wait. destruct (Z.leb_spec (exit_at p) (eof_at p + WAIT_TIMEOUT)); [| lia].
  reflexivity.
Qed.

End Executor.

(** C5.  [sleep 600]: the read loop waits for the end of the output, which
    comes when the process exits after 600 seconds; [wait(timeout=300)] is
    called only then and returns at once.  The task is reported
    [completed], nothing was killed and no timeout is reported. *)
Theorem long_sleep_is_not_timed_out :
  _execute_task (os_with sleeper) (shell_task "sleep 600")
  = (Returns (TaskResult "completed"
                (JObj [("exit_code", JNum 0); ("output", JStr EmptyString)])),
     [CallPopen "sleep 600" "/home/agent"])
  /\ WAIT_TIMEOUT < exit_at sleeper.
Proof. split; reflexivity. Qed.

(* ===================================================================== *)
(** ** Properties of the liveness registry *)
(* ===================================================================== *)

(** C8, as stated: a marker naming a live process that belongs to another
    user is reported as not running, and removed. *)
Lemma foreign_live_marker_is_removed :
  ~ (forall (py_int : string -> option Z) (os_kill : Z -> outcome unit)
            (agent_id : string) (dir : agents_dir) (text : string) (pid : Z),
        dir !! agent_id = Some text ->
        py_int text = Some pid ->
        live os_kill pid ->
        _is_agent_running py_int os_kill agent_id dir = (dir, Returns true)).
Proof.
  intros H.
  specialize (H decimal kill_foreign_init "agent-1" {["agent-1" := "1"]} "1" 1).
  rewrite lookup_singleton_eq in H.
  specialize (H eq_refl eq_refl eq_refl).
  apply (f_equal snd) in H.
  unfold _is_agent_running in H. rewrite lookup_singleton_eq in H.
  cbn in H. discriminate H.
Qed.

(** C8, amended.  Without a marker the answer is false and nothing
    changes.  With a marker whose text is an integer, the answer is true
    and the marker stays when the probe of that process goes through; the
    answer is false and the marker is removed when there is no such
    process, and also when the process is alive but may not be signalled
    by the caller.  With a marker whose text is not an integer the answer
    is false and the marker is removed. *)
Theorem is_agent_running_cases
        (py_int : string -> option Z) (os_kill : Z -> outcome unit)
        (agent_id : string) (dir : agents_dir) :
  (dir !! agent_id = None ->
   _is_agent_running py_int os_kill agent_id dir = (dir, Returns false))
  /\ (forall text pid,
         dir !! agent_id = Some text -> py_int text = Some pid ->
         live os_kill pid -> ~ foreign os_kill pid ->
         _is_agent_running py_int os_kill agent_id dir = (dir, Returns true))
  /\ (forall text pid,
         dir !! agent_id = Some text -> py_int text = Some pid ->
         dead os_kill pid \/ foreign os_kill pid ->
         _is_agent_running py_int os_kill agent_id dir
         = (delete agent_id dir, Returns false))
  /\ (forall text,
         dir !! agent_id = Some text -> py_int text = None ->
         _is_agent_running py_int os_kill agent_id dir
         = (delete agent_id dir, Returns false)).
Proof.
  unfold _is_agent_running, probe, live, dead, foreign.
  split; [| split; [| split]].
  - intros ->. reflexivity.
  - intros text pid -> -> Hlive Hown.
    destruct (os_kill pid) as [u | e]; [reflexivity | contradiction].
  - intros text pid -> -> Hgone.
    destruct (os_kill pid) as [u | e]; [tauto |].
    cbn [dispatch running_clauses matches existsb].
    destruct Hgone as [-> | ->]; rewrite ?orb_true_r; reflexivity.
  - intros text -> ->. reflexivity.
Qed.

(** A marker naming the caller's own live worker. *)
Lemma is_agent_running_cases_witness :
  ({["agent-1" := "4242"]} : agents_dir) !! "agent-1" = Some "4242"
  /\ decimal "4242" = Some 4242
  /\ live kill_own_worker 4242
  /\ ~ foreign kill_own_worker 4242
  /\ _is_agent_running decimal kill_own_worker "agent-1" {["agent-1" := "4242"]}
     = ({["agent-1" := "4242"]}, Returns true).
Proof.
  assert (Hdir : ({["agent-1" := "4242"]} : agents_dir) !! "agent-1" = Some "4242")
    by reflexivity.
  assert (Hlive : live kill_own_worker 4242) by exact I.
  assert (Hown : ~ foreign kill_own_worker 4242) by (intros H; exact H).
  split; [exact Hdir |]. split; [reflexivity |].
  split; [exact Hlive |]. split; [exact Hown |].
  exact (proj1 (proj2 (is_agent_running_cases decimal kill_own_worker "agent-1"
                         {["agent-1" := "4242"]}))
               "4242" 4242 Hdir eq_refl Hlive Hown).
Defined.

(* ===================================================================== *)
(** ** More on the durable queue *)
(* ===================================================================== *)

(** X1.  [enqueue] always keeps the entry it adds, as the last one: the
    saved queue is the old queue without its oldest entries, as many as
    needed to stay within 500, followed by the new entry. *)
Theorem enqueue_appends_newest (now ep : string) (da : json) (m : string) (d : disk) :
  _load_queue (enqueue now ep da m d)
  = drop (length (_load_queue d) + 1 - 500)%nat (_load_queue d) ++ [Entry ep da m now]
  /\ length (_load_queue (enqueue now ep da m d))
     = Nat.min (length (_load_queue d) + 1) 500.
Proof.
  rewrite enqueue_load. unfold last_n. change MAX_QUEUE_SIZE with 500%nat.
  rewrite length_app. cbn [length].
  assert (Hq : drop (length (_load_queue d) + 1 - 500)%nat
                    (_load_queue d ++ [Entry ep da m now])
               = drop (length (_load_queue d) + 1 - 500)%nat (_load_queue d)
                 ++ [Entry ep da m now]).
  { rewrite skipn_app.
    replace (length (_load_queue d) + 1 - 500 - length (_load_queue d))%nat
      with 0%nat by lia.
    reflexivity. }
  rewrite Hq. split; [reflexivity |].
  rewrite length_app, length_drop. cbn [length]. lia.
Qed.

Section ReplayInvariant.

Variables api_key backend anon_key : string.
Variable net : nat -> request -> outcome unit.

Local Abbreviation loop := (drain_loop api_key backend anon_key net).
Local Abbreviation request_of := (replay_request api_key backend anon_key).

Lemma in_drop {A : Type} (x : A) (n : nat) (l : list A) :
  In x (drop n l) -> In x l.
Proof.
  intros Hx. rewrite <- (firstn_skipn n l). apply in_or_app. right. exact Hx.
Qed.

(** No exception reaches the second clause of the replay loop, and none
    goes past the third. *)
Lemma drain_clauses_halt_or_keep (e : exn) :
  dispatch drain_clauses e = Some Halt \/ dispatch drain_clauses e = Some Keep.
Proof. destruct e as [[] code msg]; cbn; auto. Qed.

(** [queue.index(entry)] finds a position, not after the entry's own. *)
Lemma index_from_found (e : entry) (pre rest : list entry) :
  forall i0 : nat,
    exists i, index_from i0 (i0 + length pre) e (pre ++ e :: rest) = Some i
              /\ (i0 <= i <= i0 + length pre)%nat.
Proof.
  induction pre as [| x pre IH]; intros i0.
  - exists i0. cbn. rewrite Nat.add_0_r, Nat.eqb_refl. split; [reflexivity | lia].
  - cbn [app index_from length].
    destruct ((i0 =? i0 + S (length pre))%nat || entry_eq x e).
    + exists i0. split; [reflexivity | lia].
    + destruct (IH (S i0)) as (i & Hi & Hrange).
      exists i. replace (i0 + S (length pre))%nat with (S i0 + length pre)%nat by lia.
      split; [exact Hi | lia].
Qed.

(** The replay loop, from any point of the queue: it returns; what it
    saves is what was kept so far followed by entries of the queue; and
    every entry still to be tried is either delivered or saved. *)
Lemma drain_loop_invariant (queue : list entry) :
  forall (todo pre remaining : list entry) (drained : nat),
    queue = pre ++ todo ->
    exists extra n,
      loop queue (length pre) todo remaining drained = Returns (remaining ++ extra, n)
      /\ (forall x, In x extra -> In x queue)
      /\ (forall j x, todo !! j = Some x ->
                      (exists u, net (length pre + j) (request_of x) = Returns u)
                      \/ In x extra).
Proof.
  induction todo as [| e todo IH]; intros pre remaining drained Hq.
  - exists [], drained. cbn. rewrite app_nil_r.
    split; [reflexivity |]. split; [intros x [] | intros j x Hj; discriminate Hj].
  - assert (Hq' : queue = (pre ++ [e]) ++ todo) by (rewrite <- app_assoc; exact Hq).
    assert (Hlen : length (pre ++ [e]) = S (length pre))
      by (rewrite length_app; cbn; lia).
    cbn [drain_loop].
    destruct (net (length pre) (request_of e)) as [u | x] eqn:Hnet.
    + destruct (IH (pre ++ [e]) remaining (S drained) Hq')
        as (extra & n & Hrun & Hin & Hall).
      rewrite Hlen in Hrun. exists extra, n.
      split; [exact Hrun |]. split; [exact Hin |].
      intros [| j] y Hj.
      * injection Hj as <-. left. exists u. rewrite Nat.add_0_r. exact Hnet.
      * destruct (Hall j y Hj) as [Hok | Hsaved]; [left | right; exact Hsaved].
        rewrite Hlen in Hok. replace (length pre + S j)%nat with (S (length pre) + j)%nat
          by lia. exact Hok.
    + destruct (drain_clauses_halt_or_keep x) as [-> | ->].
      * destruct (index_from_found e pre todo 0) as (i & Hi & Hrange).
        cbn [Nat.add] in Hi. unfold index. rewrite Hq, Hi.
        exists ([e] ++ drop (S i) (pre ++ e :: todo)), drained.
        rewrite <- app_assoc.
        split; [reflexivity |]. split.
        -- intros y Hy. apply in_app_or in Hy as [Hy | Hy].
           ++ destruct Hy as [<- | []]. apply in_or_app. right. left. reflexivity.
           ++ eapply in_drop. exact Hy.
        -- intros [| j] y Hj.
           ++ injection Hj as <-. right. left. reflexivity.
           ++ right. apply in_or_app. right.
              apply list_elem_of_In, list_elem_of_lookup.
              exists (length pre - i + j)%nat.
              rewrite lookup_drop.
              replace (S i + (length pre - i + j))%nat with (length pre + S j)%nat by lia.
              rewrite lookup_app_r by lia.
              replace (length pre + S j - length pre)%nat with (S j) by lia.
              exact Hj.
      * destruct (IH (pre ++ [e]) (remaining ++ [e]) drained Hq')
          as (extra & n & Hrun & Hin & Hall).
        rewrite Hlen in Hrun. exists (e :: extra), n.
        split; [rewrite Hrun, <- app_assoc; reflexivity |]. split.
        -- intros y [<- | Hy]; [| apply Hin; exact Hy].
           rewrite Hq. apply in_or_app. right. left. reflexivity.
        -- intros [| j] y Hj.
           ++ injection Hj as <-. right. left. reflexivity.
           ++ destruct (Hall j y Hj) as [Hok | Hsaved]; [left | right; right; exact Hsaved].
              rewrite Hlen in Hok.
              replace (length pre + S j)%nat with (S (length pre) + j)%nat by lia.
              exact Hok.
Qed.

(** Without an [OSError] among the exceptions raised, the loop goes
    through the whole queue: it saves the entries whose send raised, in
    order, and counts the others. *)
Lemma drain_loop_without_halt (queue : list entry) :
  (forall pos req e, net pos req = Raises e -> isinstance e C_OSError = false) ->
  forall (todo : list entry) (pos : nat) (remaining : list entry) (drained : nat),
    loop queue pos todo remaining drained
    = Returns (remaining ++ raising api_key backend anon_key net pos todo,
               (drained + delivered api_key backend anon_key net pos todo)%nat).
Proof.
  intros Hsoft. induction todo as [| e todo IH]; intros pos remaining drained.
  - cbn. rewrite app_nil_r, Nat.add_0_r. reflexivity.
  - cbn [drain_loop raising delivered].
    destruct (net pos (request_of e)) as [u | x] eqn:Hnet.
    + rewrite IH. f_equal. f_equal. lia.
    + pose proof (Hsoft pos _ x Hnet) as Hx.
      assert (Hkeep : dispatch drain_clauses x = Some Keep).
      { destruct x as [[] code msg]; cbn in Hx |- *; congruence. }
      rewrite Hkeep, IH, <- app_assoc. reflexivity.
Qed.

End ReplayInvariant.

(** X2.  Against a backend that accepts every request, the replay loop
    delivers the whole queue, counts as many deliveries as the queue had
    entries, and [try_drain_queue] leaves an empty queue behind. *)
Theorem drain_against_accepting_backend
        (api_key backend anon_key : string)
        (net : nat -> request -> outcome unit) (d : disk) :
  (forall pos req, exists u, net pos req = Returns u) ->
  drain_loop api_key backend anon_key net (_load_queue d) 0 (_load_queue d) [] 0
  = Returns ([], length (_load_queue d))
  /\ _load_queue (fst (try_drain_queue api_key backend anon_key net d)) = []
  /\ snd (try_drain_queue api_key backend anon_key net d) = Returns tt.
Proof.
  intros Hok.
  assert (Hrun : drain_loop api_key backend anon_key net (_load_queue d) 0
                            (_load_queue d) [] 0
                 = Returns ([], length (_load_queue d))).
  { pose proof (drain_loop_delivered api_key backend anon_key net
                  (_load_queue d) (_load_queue d) 0 [] [] 0) as H.
    rewrite app_nil_r in H. rewrite H; [reflexivity |].
    intros j x _. apply Hok. }
  split; [exact Hrun |].
  unfold try_drain_queue. destruct (_load_queue d) as [| e q] eqn:Hq.
  - cbn [fst snd]. rewrite Hq. split; reflexivity.
  - rewrite Hrun. split; reflexivity.
Qed.

Lemma drain_against_accepting_backend_witness :
  (forall pos req, exists u, accepting pos req = Returns u)
  /\ try_drain_queue "key" "https://backend" "anon" accepting
                     (Some (Parsed [report_a; report_b]))
     = (Some (Parsed []), Returns tt).
Proof.
  assert (Hok : forall pos req, exists u, accepting pos req = Returns u)
    by (intros pos req; exists tt; reflexivity).
  split; [exact Hok |].
  destruct (drain_against_accepting_backend "key" "https://backend" "anon" accepting
              (Some (Parsed [report_a; report_b])) Hok) as (_ & Hdisk & Hret).
  reflexivity.
Defined.

(** The first entry is delivered, the second meets an unreachable
    endpoint and differs from the first. *)
Lemma drain_halts_without_duplicate_witness :
  Forall (fun y => entry_eq y report_b = false) [report_a]
  /\ try_drain_queue "key" "https://backend" "anon"
                     (scripted [Returns tt; Raises url_error])
                     (Some (Parsed ([report_a] ++ report_b :: [report_a])))
     = (Some (Parsed (report_b :: [report_a])), Returns tt).
Proof.
  assert (Hfresh : Forall (fun y => entry_eq y report_b = false) [report_a])
    by (repeat constructor).
  split; [exact Hfresh |].
  apply (drain_halts_without_duplicate "key" "https://backend" "anon"
           (scripted [Returns tt; Raises url_error]) [report_a] [report_a]
           report_b url_error).
  - intros [| j] y Hy; [| discriminate Hy]. exists tt. reflexivity.
  - reflexivity.
  - reflexivity.
  - exact Hfresh.
Defined.


(** X5.  A replay saves nothing but entries of the queue it loaded. *)
Theorem drain_saves_only_queued_entries
        (api_key backend anon_key : string)
        (net : nat -> request -> outcome unit) (d : disk) (x : entry) :
  In x (_load_queue (fst (try_drain_queue api_key backend anon_key net d))) ->
  In x (_load_queue d).
Proof.
  unfold try_drain_queue. destruct (_load_queue d) as [| e q] eqn:Hq.
  - cbn [fst]. rewrite Hq. intros [].
  - destruct (drain_loop_invariant api_key backend anon_key net (e :: q)
                (e :: q) [] [] 0 eq_refl) as (extra & n & Hrun & Hin & _).
    cbn [length] in Hrun. rewrite Hrun. cbn. exact (Hin x).
Qed.

Lemma drain_saves_only_queued_entries_witness :
  In report_b
     (_load_queue (fst (try_drain_queue "key" "https://backend" "anon"
                          (scripted [Returns tt; Raises url_error])
                          (Some (Parsed [report_a; report_b])))))
  /\ In report_b (_load_queue (Some (Parsed [report_a; report_b]))).
Proof.
  assert (Hin : In report_b
                   (_load_queue (fst (try_drain_queue "key" "https://backend" "anon"
                                        (scripted [Returns tt; Raises url_error])
                                        (Some (Parsed [report_a; report_b]))))))
    by (left; reflexivity).
  split; [exact Hin |].
  exact (drain_saves_only_queued_entries "key" "https://backend" "anon"
           (scripted [Returns tt; Raises url_error])
           (Some (Parsed [report_a; report_b])) report_b Hin).
Defined.

(** X6.  A replay loses nothing it did not deliver: every entry of the
    loaded queue was either sent with the send returning, or is in the
    saved queue. *)
Theorem drain_loses_nothing_undelivered
        (api_key backend anon_key : string)
        (net : nat -> request -> outcome unit) (d : disk) (j : nat) (x : entry) :
  _load_queue d !! j = Some x ->
  (exists u, net j (replay_request api_key backend anon_key x) = Returns u)
  \/ In x (_load_queue (fst (try_drain_queue api_key backend anon_key net d))).
Proof.
  unfold try_drain_queue. destruct (_load_queue d) as [| e q] eqn:Hq.
  - intros Hj. discriminate Hj.
  - intros Hj.
    destruct (drain_loop_invariant api_key backend anon_key net (e :: q)
                (e :: q) [] [] 0 eq_refl) as (extra & n & Hrun & _ & Hall).
    cbn [length] in Hrun. rewrite Hrun. cbn [fst _load_queue _save_queue app].
    destruct (Hall j x Hj) as [Hok | Hsaved]; [left; exact Hok | right; exact Hsaved].
Qed.

Lemma drain_loses_nothing_undelivered_witness :
  _load_queue (Some (Parsed [report_a; report_b])) !! 1%nat = Some report_b
  /\ ((exists u, scripted [Returns tt; Raises (http_error 404)] 1%nat
                   (replay_request "key" "https://backend" "anon" report_b)
                 = Returns u)
      \/ In report_b
            (_load_queue (fst (try_drain_queue "key" "https://backend" "anon"
                                 (scripted [Returns tt; Raises (http_error 404)])
                                 (Some (Parsed [report_a; report_b])))))).
Proof.
  split; [reflexivity |].
  exact (drain_loses_nothing_undelivered "key" "https://backend" "anon"
           (scripted [Returns tt; Raises (http_error 404)])
           (Some (Parsed [report_a; report_b])) 1 report_b eq_refl).
Defined.

(** X7.  When no send raises an [OSError] (so neither a connection
    failure nor an HTTP error), the replay goes through the whole queue
    and saves exactly the entries whose send raised, in their order. *)
Theorem drain_keeps_entries_that_raise
        (api_key backend anon_key : string)
        (net : nat -> request -> outcome unit) (d : disk) :
  (forall pos req e, net pos req = Raises e -> isinstance e C_OSError = false) ->
  _load_queue (fst (try_drain_queue api_key backend anon_key net d))
  = raising api_key backend anon_key net 0 (_load_queue d)
  /\ (length (raising api_key backend anon_key net 0 (_load_queue d))
      + delivered api_key backend anon_key net 0 (_load_queue d)
      = length (_load_queue d))%nat.
Proof.
  intros Hsoft. split.
  - unfold try_drain_queue. destruct (_load_queue d) as [| e q] eqn:Hq.
    + cbn [fst]. rewrite Hq. reflexivity.
    + rewrite (drain_loop_without_halt api_key backend anon_key net (e :: q) Hsoft).
      reflexivity.
  - generalize 0%nat. induction (_load_queue d) as [| e q IH]; intros pos.
    + reflexivity.
    + cbn [raising delivered length].
      destruct (net pos (replay_request api_key backend anon_key e));
        cbn [length]; specialize (IH (S pos)); lia.
Qed.

(** A response that is not understood on the first entry, an accepted
    second entry. *)
Lemma drain_keeps_entries_that_raise_witness :
  (forall pos req e,
      scripted [Raises decode_error; Returns tt] pos req = Raises e ->
      isinstance e C_OSError = false)
  /\ _load_queue (fst (try_drain_queue "key" "https://backend" "anon"
                         (scripted [Raises decode_error; Returns tt])
                         (Some (Parsed [report_a; report_b]))))
     = [report_a].
Proof.
  assert (Hsoft : forall pos req e,
             scripted [Raises decode_error; Returns tt] pos req = Raises e ->
             isinstance e C_OSError = false).
  { intros [| [| [| pos]]] req e H; cbn in H; try discriminate H.
    injection H as <-. reflexivity. }
  split; [exact Hsoft |].
  rewrite (proj1 (drain_keeps_entries_that_raise "key" "https://backend" "anon"
                    (scripted [Raises decode_error; Returns tt])
                    (Some (Parsed [report_a; report_b])) Hsoft)).
  reflexivity.
Defined.

(* ===================================================================== *)
(** ** More on the resilient client *)
(* ===================================================================== *)

(** X8.  A request with a payload that fails, whatever is raised (a
    connection failure, an HTTP error, a response that does not decode):
    [None] is returned and the request is queued; the queued entry is the
    last of the queue, and the request a replay builds from it, under the
    same keys, is the request that failed. *)
Theorem failed_request_is_queued_as_sent
        (now endpoint : string) (data : json) (method : string)
        (api_key backend anon_key : string)
        (net : request -> outcome json) (d : disk) (e : exn) :
  truthy data = true ->
  net (build_request endpoint data method api_key backend anon_key) = Raises e ->
  resilient_request now endpoint data method api_key backend anon_key net d
  = (enqueue now endpoint data method d, Returns None)
  /\ last (_load_queue (enqueue now endpoint data method d))
     = Some (Entry endpoint data method now)
  /\ replay_request api_key backend anon_key (Entry endpoint data method now)
     = build_request endpoint data method api_key backend anon_key.
Proof.
  intros Hpayload Hnet. split; [| split].
  - rewrite (resilient_request_on_failure _ _ _ _ _ _ _ _ _ e Hnet), Hpayload.
    reflexivity.
  - rewrite enqueue_load. unfold last_n.
    rewrite skipn_app, last_app.
    replace (drop _ [Entry endpoint data method now])
      with [Entry endpoint data method now]; [reflexivity |].
    rewrite length_app. cbn [length].
    replace (_ - _ - _)%nat with 0%nat by (unfold MAX_QUEUE_SIZE; lia).
    reflexivity.
  - unfold build_request, replay_request. rewrite Hpayload. reflexivity.
Qed.

Lemma failed_request_is_queued_as_sent_witness :
  truthy (JObj [("task_id", JStr "task-a")]) = true
  /\ resilient_request "2024-05-01T10:00:00+00:00" "agent-task-result"
                       (JObj [("task_id", JStr "task-a")]) "POST"
                       "key" "https://backend" "anon"
                       (fun _ => Raises decode_error) None
     = (enqueue "2024-05-01T10:00:00+00:00" "agent-task-result"
                (JObj [("task_id", JStr "task-a")]) "POST" None,
        Returns None).
Proof.
  split; [reflexivity |].
  apply (failed_request_is_queued_as_sent
           "2024-05-01T10:00:00+00:00" "agent-task-result"
           (JObj [("task_id", JStr "task-a")]) "POST"
           "key" "https://backend" "anon"
           (fun _ => Raises decode_error) None decode_error);
    reflexivity.
Defined.

(** X9.  A request with a payload that fails while the queue is empty or
    absent, followed by a replay against a backend that accepts: the queue
    is empty again. *)
Theorem queued_request_round_trip
        (now endpoint : string) (data : json) (method : string)
        (api_key backend anon_key : string)
        (net : request -> outcome json) (net' : nat -> request -> outcome unit)
        (d : disk) (e : exn) :
  truthy data = true ->
  _load_queue d = [] ->
  net (build_request endpoint data method api_key backend anon_key) = Raises e ->
  (forall pos req, exists u, net' pos req = Returns u) ->
  _load_queue (fst (resilient_request now endpoint data method
                                      api_key backend anon_key net d))
  = [Entry endpoint data method now]
  /\ try_drain_queue api_key backend anon_key net'
       (fst (resilient_request now endpoint data method
                               api_key backend anon_key net d))
     = (Some (Parsed []), Returns tt).
Proof.
  intros Hpayload Hempty Hnet Hok.
  rewrite (resilient_request_on_failure _ _ _ _ _ _ _ _ _ e Hnet), Hpayload.
  cbn [fst].
  assert (Hq : enqueue now endpoint data method d
               = Some (Parsed [Entry endpoint data method now])).
  { unfold enqueue. rewrite Hempty. reflexivity. }
  rewrite Hq. split; [reflexivity |].
  unfold try_drain_queue. cbn [_load_queue drain_loop].
  destruct (Hok 0%nat (replay_request api_key backend anon_key
                         (Entry endpoint data method now))) as [u ->].
  reflexivity.
Qed.

Lemma queued_request_round_trip_witness :
  truthy (JObj [("task_id", JStr "task-a")]) = true
  /\ _load_queue None = []
  /\ (forall pos req, exists u, accepting pos req = Returns u)
  /\ try_drain_queue "key" "https://backend" "anon" accepting
       (fst (resilient_request "2024-05-01T10:00:00+00:00" "agent-task-result"
                               (JObj [("task_id", JStr "task-a")]) "POST"
                               "key" "https://backend" "anon"
                               (fun _ => Raises url_error) None))
     = (Some (Parsed []), Returns tt).
Proof.
  assert (Hok : forall pos req, exists u, accepting pos req = Returns u)
    by (intros pos req; exists tt; reflexivity).
  split; [reflexivity |]. split; [reflexivity |]. split; [exact Hok |].
  apply (queued_request_round_trip
           "2024-05-01T10:00:00+00:00" "agent-task-result"
           (JObj [("task_id", JStr "task-a")]) "POST"
           "key" "https://backend" "anon"
           (fun _ => Raises url_error) accepting None url_error
           eq_refl eq_refl eq_refl Hok).
Defined.

(** X10.  [_api_request] (with its default token header) against
    [resilient_request], on the same arguments.  When the request can be
    built and the body of an HTTP error can be read, both hand the
    network the same request and [_api_request] returns what
    [resilient_request] returns, on every outcome of the network: the
    decoded response, or [None] on any exception; only the queue file
    tells them apart.  When the request cannot be built, the exception
    leaves [_api_request], whose constructor call is outside the [try];
    so does an exception raised while the body of an HTTP error is
    read. *)
Theorem resilient_request_answers_like_api_request
        (construct : request -> outcome unit) (read_body : exn -> outcome string)
        (now endpoint : string) (data : json) (method : string)
        (api_key backend anon_key : string)
        (net : request -> outcome json) (d : disk) :
  (construct (build_request endpoint data method api_key backend anon_key) = Returns tt ->
   (forall e, isinstance e C_HTTPError = true -> exists text, read_body e = Returns text) ->
   _api_request construct read_body endpoint data method api_key backend anon_key
                "x-bridge-key" net
   = snd (resilient_request now endpoint data method api_key backend anon_key net d))
  /\ (forall e,
         construct (build_request endpoint data method api_key backend anon_key)
         = Raises e ->
         _api_request construct read_body endpoint data method api_key backend anon_key
                      "x-bridge-key" net
         = Raises e)
  /\ (forall e e',
         construct (build_request endpoint data method api_key backend anon_key)
         = Returns tt ->
         net (build_request endpoint data method api_key backend anon_key) = Raises e ->
         isinstance e C_HTTPError = true ->
         read_body e = Raises e' ->
         _api_request construct read_body endpoint data method api_key backend anon_key
                      "x-bridge-key" net
         = Raises e').
Proof.
  assert (Hreq : (if truthy data
                  then Request (make_url backend endpoint) (Some data)
                               (api_headers anon_key "x-bridge-key" api_key) method
                  else Request (make_url backend endpoint) None
                               (api_headers anon_key "x-bridge-key" api_key) method)
                 = build_request endpoint data method api_key backend anon_key).
  { unfold build_request.
    change (api_headers anon_key "x-bridge-key" api_key)
      with (make_headers anon_key api_key).
    reflexivity. }
  unfold _api_request. cbv zeta. rewrite Hreq.
  split; [| split].
  - intros -> Hread.
    destruct (net (build_request endpoint data method api_key backend anon_key))
      as [response | e] eqn:Hnet.
    + rewrite (resilient_request_on_success _ _ _ _ _ _ _ _ _ response Hnet).
      reflexivity.
    + rewrite (resilient_request_on_failure _ _ _ _ _ _ _ _ _ e Hnet). cbn [snd].
      destruct (isinstance e C_HTTPError) eqn:Hhttp.
      * destruct (Hread e Hhttp) as [text Htext].
        destruct e as [[] code msg]; cbn in Hhttp; try discriminate Hhttp.
        cbn [dispatch api_clauses matches existsb isinstance issubclass mro
             exn_class pyclass_eqb orb].
        rewrite Htext. reflexivity.
      * destruct e as [[] code msg]; cbn in Hhttp; try discriminate Hhttp;
          reflexivity.
  - intros e ->. reflexivity.
  - intros e e' -> -> Hhttp Hbody.
    destruct e as [[] code msg]; cbn in Hhttp; try discriminate Hhttp.
    cbn [dispatch api_clauses matches existsb isinstance issubclass mro
         exn_class pyclass_eqb orb].
    rewrite Hbody. reflexivity.
Qed.

(** An unreachable backend: both return [None]. *)
Lemma resilient_request_answers_like_api_request_witness :
  (fun _ : request => Returns tt)
    (build_request "bridge-poll" (JObj [("action", JStr "list_agents")]) "POST"
                   "key" "https://backend" "anon") = Returns tt
  /\ _api_request (fun _ => Returns tt) (fun _ => Returns EmptyString)
                  "bridge-poll" (JObj [("action", JStr "list_agents")]) "POST"
                  "key" "https://backend" "anon" "x-bridge-key"
                  (fun _ => Raises url_error)
     = Returns None.
Proof.
  split; [reflexivity |].
  rewrite (proj1 (resilient_request_answers_like_api_request
                    (fun _ => Returns tt) (fun _ => Returns EmptyString)
                    "2024-05-01T10:00:00+00:00" "bridge-poll"
                    (JObj [("action", JStr "list_agents")]) "POST"
                    "key" "https://backend" "anon" (fun _ => Raises url_error) None)
                 eq_refl (fun e _ => ex_intro _ EmptyString eq_refl)).
  reflexivity.
Defined.

(* ===================================================================== *)
(** ** More on the task executor *)
(* ===================================================================== *)

Section ExecutorPaths.


(** The handlers of the shell branch turn every exception into a [failed]
    result and start no process. *)
Lemma handle_shell_returns (before : list event) (e : exn) :
  exists r evs,
    handle shell_clauses before e = (Returns r, before ++ evs)
    /\ result_status r = "failed" /\ spawn_calls evs = 0%nat.
Proof.
  unfold handle. destruct e as [[] code msg]; cbn;
    eexists _, _; (split; [reflexivity | split; reflexivity]).
Qed.

(** A script kind is not a shell kind. *)
Lemma script_kind_not_shell (kind : string) :
  is_script_kind kind = true -> is_shell_kind kind = false.
Proof.
  unfold is_script_kind. intros H.
  apply existsb_exists in H as (k & Hin & Heq).
  apply String.eqb_eq in Heq. subst k.
  cbn in Hin. destruct Hin as [<- | [<- | []]]; reflexivity.
Qed.

Lemma substring_prefix_length (n : nat) (s : string) :
  String.length (substring 0 n s) = Nat.min n (String.length s).
Proof.
  revert n. induction s as [| c s IH]; intros [| n]; cbn; try reflexivity.
  rewrite IH. reflexivity.
Qed.

Lemma substring_prefix_all (n : nat) (s : string) :
  (String.length s <= n)%nat -> substring 0 n s = s.
Proof.
  revert n. induction s as [| c s IH]; intros [| n] Hle; cbn in *;
    try reflexivity; try lia.
  rewrite IH by lia. reflexivity.
Qed.

Lemma substring_is_prefix (n : nat) (s : string) :
  exists rest, s = substring 0 n s +:+ rest.
Proof.
  revert n. induction s as [| c s IH]; intros [| n].
  - exists EmptyString. reflexivity.
  - exists EmptyString. reflexivity.
  - exists (String c s). reflexivity.
  - destruct (IH n) as [rest Hrest]. exists rest.
    change (String c s = String c (substring 0 n s +:+ rest)).
    f_equal. exact Hrest.
Qed.

End ExecutorPaths.



(** X13.  A shell task whose process cannot be started: the error text is
    reported in a [failed] result and nothing is killed. *)
Theorem spawn_failure_is_reported (w : os) (t : task) (e : exn) :
  is_shell_kind (action_type t) = true ->
  popen w (default (action_description t) (command (task_data t)))
          (default (home w) (cwd (task_data t))) = Raises e ->
  isinstance e C_TimeoutExpired = false ->
  _execute_task w t
  = (Returns (TaskResult "failed" (JObj [("error", JStr (exn_str e))])),
     [CallPopen (default (action_description t) (command (task_data t)))
                (default (home w) (cwd (task_data t)))]).
Proof.
  intros Hkind Hspawn Hnot.
  unfold _execute_task. rewrite Hkind, Hspawn.
  unfold handle. destruct e as [[] code msg]; cbn in Hnot |- *;
    try discriminate Hnot; reflexivity.
Qed.

Lemma spawn_failure_is_reported_witness :
  isinstance (Exn C_Other 2 "No such file or directory") C_TimeoutExpired = false
  /\ _execute_task (os_running (Completed 0 EmptyString EmptyString))
                   (shell_task "ls")
     = (Returns (TaskResult "failed"
                   (JObj [("error", JStr "No such file or directory")])),
        [CallPopen "ls" "/home/agent"]).
Proof.
  split; [reflexivity |].
  apply (spawn_failure_is_reported
           (os_running (Completed 0 EmptyString EmptyString)) (shell_task "ls")
           (Exn C_Other 2 "No such file or directory")); reflexivity.
Defined.

(** X14.  A shell task without a [command] and without a [cwd]: what is
    handed to the shell is the task's description, in the home
    directory. *)
Theorem shell_runs_description_without_command (w : os) (t : task) :
  is_shell_kind (action_type t) = true ->
  command (task_data t) = None ->
  cwd (task_data t) = None ->
  exists rest,
    snd (_execute_task w t) = CallPopen (action_description t) (home w) :: rest.
Proof.
  intros Hkind Hcmd Hcwd.
  unfold _execute_task. rewrite Hkind, Hcmd, Hcwd. cbn [default].
  destruct (popen w (action_description t) (home w)) as [p | e].
  - destruct (read_loop (stdout_lines p) []) as [output_lines killed].
    destruct (wait p killed) as [rc | e].
    + eexists. reflexivity.
    + destruct (handle_shell_returns
                  (CallPopen (action_description t) (home w)
                   :: (if killed then [Kill] else [])) e)
        as (r & evs & -> & _ & _).
      eexists. reflexivity.
  - destruct (handle_shell_returns [CallPopen (action_description t) (home w)] e)
      as (r & evs & -> & _ & _).
    eexists. reflexivity.
Qed.

Lemma shell_runs_description_without_command_witness :
  command (task_data (Task "execute" (ActionData None None None) "rm -rf build")) = None
  /\ exists rest,
      snd (_execute_task (os_with sleeper)
                         (Task "execute" (ActionData None None None) "rm -rf build"))
      = CallPopen "rm -rf build" "/home/agent" :: rest.
Proof.
  split; [reflexivity |].
  apply (shell_runs_description_without_command (os_with sleeper)
           (Task "execute" (ActionData None None None) "rm -rf build"));
    reflexivity.
Defined.

(** X15.  A script task whose interpreter run completes: the result
    carries the exit code, the first 20,000 characters of the standard
    output and the first 5,000 of the standard error (each a prefix of
    the text, of the length of the text when that is shorter and of
    20,000 or 5,000 otherwise); the status is [completed] exactly for
    exit code 0. *)
Theorem script_output_is_sliced (w : os) (t : task) (src : string) (result : completed) :
  is_script_kind (action_type t) = true ->
  script (task_data t) = Some src ->
  src <> EmptyString ->
  run_python w src (default (home w) (cwd (task_data t))) = Returns result ->
  exists out err,
    _execute_task w t
    = (Returns (TaskResult (status_of (run_returncode result))
                  (JObj [("exit_code", JNum (run_returncode result));
                         ("stdout", JStr out); ("stderr", JStr err)])),
       [CallRun src (default (home w) (cwd (task_data t)))])
    /\ (exists rest, run_stdout result = out +:+ rest)
    /\ (exists rest, run_stderr result = err +:+ rest)
    /\ slen out = Z.min 20000 (slen (run_stdout result))
    /\ slen err = Z.min 5000 (slen (run_stderr result))
    /\ (slen (run_stdout result) <= 20000 -> out = run_stdout result)
    /\ (slen (run_stderr result) <= 5000 -> err = run_stderr result)
    /\ (status_of (run_returncode result) = "completed" <-> run_returncode result = 0).
Proof.
  intros Hkind Hsrc Hne Hrun.
  exists (substring 0 (Z.to_nat 20000) (run_stdout result)),
         (substring 0 (Z.to_nat 5000) (run_stderr result)).
  split; [| split; [| split; [| split; [| split; [| split; [| split]]]]]].
  - unfold _execute_task.
    rewrite (script_kind_not_shell _ Hkind), Hkind, Hsrc.
    change (default EmptyString (Some src)) with src.
    destruct (String.eqb_spec src EmptyString) as [Heq | _]; [contradiction |].
    rewrite Hrun. reflexivity.
  - apply substring_is_prefix.
  - apply substring_is_prefix.
  - unfold slen. rewrite substring_prefix_length. lia.
  - unfold slen. rewrite substring_prefix_length. lia.
  - unfold slen. intros Hle. apply substring_prefix_all. lia.
  - unfold slen. intros Hle. apply substring_prefix_all. lia.
  - unfold status_of. destruct (Z.eqb_spec (run_returncode result) 0); split;
      intros H; try discriminate H; congruence.
Qed.

Lemma script_output_is_sliced_witness :
  "print(1)" <> EmptyString
  /\ fst (_execute_task (os_running (Completed 1 "1" "warning"))
                        (script_task (Some "print(1)")))
     = Returns (TaskResult "failed"
                  (JObj [("exit_code", JNum 1);
                         ("stdout", JStr "1"); ("stderr", JStr "warning")])).
Proof.
  assert (Hne : "print(1)" <> EmptyString) by discriminate.
  split; [exact Hne |].
  destruct (script_output_is_sliced (os_running (Completed 1 "1" "warning"))
              (script_task (Some "print(1)")) "print(1)" (Completed 1 "1" "warning")
              eq_refl eq_refl Hne eq_refl)
    as (out & err & Hrun & _ & _ & _ & _ & Hout & Herr & _).
  rewrite Hrun, (Hout ltac:(vm_compute; discriminate)),
    (Herr ltac:(vm_compute; discriminate)).
  reflexivity.
Defined.

(** X16.  A script task without a [script], or with an empty one: the
    result is [failed] with [No script provided], and no interpreter is
    run. *)
Theorem missing_script_is_rejected (w : os) (t : task) :
  is_script_kind (action_type t) = true ->
  script (task_data t) = None \/ script (task_data t) = Some EmptyString ->
  _execute_task w t
  = (Returns (TaskResult "failed" (JObj [("error", JStr "No script provided")])), []).
Proof.
  intros Hkind Hsrc. unfold _execute_task.
  rewrite (script_kind_not_shell _ Hkind), Hkind.
  destruct Hsrc as [-> | ->]; reflexivity.
Qed.

Lemma missing_script_is_rejected_witness :
  script (task_data (script_task None)) = None
  /\ _execute_task (os_with sleeper) (script_task None)
     = (Returns (TaskResult "failed" (JObj [("error", JStr "No script provided")])), []).
Proof.
  split; [reflexivity |].
  apply (missing_script_is_rejected (os_with sleeper) (script_task None));
    [reflexivity | left; reflexivity].
Defined.

(* ===================================================================== *)
(** ** More on the liveness registry and on the actions that use it *)
(* ===================================================================== *)

Section Registry.

Variable py_int : string -> option Z.
Variable os_kill : Z -> outcome unit.

Local Abbreviation running := (_is_agent_running py_int os_kill).

(** A liveness check either leaves the directory as it is or removes the
    marker it looked at. *)
Lemma is_agent_running_dir (agent_id : string) (dir : agents_dir) :
  fst (running agent_id dir) = dir
  \/ (fst (running agent_id dir) = delete agent_id dir
      /\ snd (running agent_id dir) = Returns false).
Proof.
  unfold _is_agent_running.
  destruct (dir !! agent_id) as [text |]; [| left; reflexivity].
  destruct (probe py_int os_kill text) as [b | e]; [left; reflexivity |].
  destruct (dispatch running_clauses e); [right; split | left]; reflexivity.
Qed.

End Registry.

(** X17.  Checking twice is checking once: a second liveness check, the
    processes being as they were, gives the answer of the first and
    changes nothing more. *)
Theorem is_agent_running_idempotent
        (py_int : string -> option Z) (os_kill : Z -> outcome unit)
        (agent_id : string) (dir : agents_dir) :
  _is_agent_running py_int os_kill agent_id
                    (fst (_is_agent_running py_int os_kill agent_id dir))
  = _is_agent_running py_int os_kill agent_id dir.
Proof.
  unfold _is_agent_running at 2 3.
  destruct (dir !! agent_id) as [text |] eqn:Hdir.
  - destruct (probe py_int os_kill text) as [b | e] eqn:Hprobe.
    + cbn [fst]. unfold _is_agent_running. rewrite Hdir, Hprobe. reflexivity.
    + destruct (dispatch running_clauses e) eqn:Hd.
      * cbn [fst]. unfold _is_agent_running.
        rewrite lookup_delete_eq. reflexivity.
      * cbn [fst]. unfold _is_agent_running. rewrite Hdir, Hprobe, Hd. reflexivity.
  - cbn [fst]. unfold _is_agent_running. rewrite Hdir. reflexivity.
Qed.

(** X18.  A liveness check never touches the marker of another agent,
    and never writes one: afterwards every marker is either as before or
    gone, and only the marker checked can be gone. *)
Theorem is_agent_running_frame
        (py_int : string -> option Z) (os_kill : Z -> outcome unit)
        (agent_id other : string) (dir : agents_dir) :
  (other <> agent_id ->
   fst (_is_agent_running py_int os_kill agent_id dir) !! other = dir !! other)
  /\ (fst (_is_agent_running py_int os_kill agent_id dir) !! agent_id = dir !! agent_id
      \/ fst (_is_agent_running py_int os_kill agent_id dir) !! agent_id = None).
Proof.
  destruct (is_agent_running_dir py_int os_kill agent_id dir) as [-> | [-> _]].
  - split; [reflexivity | left; reflexivity].
  - split.
    + intros Hne. apply lookup_delete_ne. congruence.
    + right. apply lookup_delete_eq.
Qed.

Lemma is_agent_running_frame_witness :
  "agent-2" <> "agent-1"
  /\ fst (_is_agent_running decimal kill_foreign_init "agent-1"
            (<["agent-2" := "77"]> {["agent-1" := "1"]})) !! "agent-2"
     = Some "77".
Proof.
  assert (Hne : "agent-2" <> "agent-1") by discriminate.
  split; [exact Hne |].
  rewrite (proj1 (is_agent_running_frame decimal kill_foreign_init
                    "agent-1" "agent-2"
                    (<["agent-2" := "77"]> {["agent-1" := "1"]})) Hne).
  apply lookup_insert_eq.
Defined.

(** X19.  A marker written by a process that is alive is found running,
    and stays: [_write_pid] followed by [_is_agent_running] answers true,
    given that [int] reads back what [str] wrote. *)
Theorem written_marker_is_running
        (py_int : string -> option Z) (os_kill : Z -> outcome unit)
        (getpid : Z) (agent_id : string) (dir : agents_dir) :
  py_int (py_str getpid) = Some getpid ->
  os_kill getpid = Returns tt ->
  _is_agent_running py_int os_kill agent_id (_write_pid getpid agent_id dir)
  = (_write_pid getpid agent_id dir, Returns true).
Proof.
  intros Hread Halive. unfold _is_agent_running, _write_pid, probe.
  rewrite lookup_insert_eq, Hread, Halive. reflexivity.
Qed.

Lemma written_marker_is_running_witness :
  decimal (py_str 4242) = Some 4242
  /\ kill_own_worker 4242 = Returns tt
  /\ _is_agent_running decimal kill_own_worker "agent-1"
                       (_write_pid 4242 "agent-1" ∅)
     = (_write_pid 4242 "agent-1" ∅, Returns true).
Proof.
  split; [reflexivity |]. split; [reflexivity |].
  apply (written_marker_is_running decimal kill_own_worker 4242 "agent-1" ∅);
    reflexivity.
Defined.

(** X20.  [_remove_pid] removes the marker whether it is there or not,
    undoes [_write_pid], and a liveness check after it answers false and
    finds nothing to clean. *)
Theorem removed_marker_is_not_running
        (py_int : string -> option Z) (os_kill : Z -> outcome unit)
        (getpid : Z) (agent_id : string) (dir : agents_dir) :
  _remove_pid agent_id dir = delete agent_id dir
  /\ _remove_pid agent_id (_write_pid getpid agent_id dir) = delete agent_id dir
  /\ _is_agent_running py_int os_kill agent_id (_remove_pid agent_id dir)
     = (_remove_pid agent_id dir, Returns false).
Proof.
  assert (Hrm : forall m : agents_dir, _remove_pid agent_id m = delete agent_id m).
  { intros m. unfold _remove_pid. destruct (m !! agent_id) eqn:Hm; [reflexivity |].
    symmetry. apply delete_id. exact Hm. }
  split; [apply Hrm |]. split.
  - rewrite Hrm. unfold _write_pid. apply delete_insert_eq.
  - rewrite Hrm. unfold _is_agent_running. rewrite lookup_delete_eq. reflexivity.
Qed.

Section StopStart.

Variable py_int : string -> option Z.
Variables os_kill_term os_kill : Z -> outcome unit.

(** The first clause of the [stop] action's [try] takes the exceptions
    that are a [ProcessLookupError], the second all the others. *)
Lemma stop_clauses_decide (e : exn) :
  dispatch stop_clauses e = Some (isinstance e C_ProcessLookupError).
Proof. destruct e as [[] code msg]; reflexivity. Qed.

Lemma stop_agent_unfold (agent_id : string) (dir : agents_dir) :
  stop_agent py_int os_kill_term agent_id dir
  = match dir !! agent_id with
    | None => ((dir, []), Returns tt)
    | Some text =>
        match send_stop py_int os_kill_term text with
        | Returns pid => ((delete agent_id dir, [pid]), Returns tt)
        | Raises e =>
            if isinstance e C_ProcessLookupError
            then ((delete agent_id dir, []), Returns tt)
            else ((dir, []), Returns tt)
        end
    end.
Proof.
  unfold stop_agent. destruct (dir !! agent_id) as [text |]; [| reflexivity].
  destruct (send_stop py_int os_kill_term text) as [pid | e]; [reflexivity |].
  rewrite stop_clauses_decide. destruct (isinstance e C_ProcessLookupError); reflexivity.
Qed.

End StopStart.

(** X21.  The [stop] action returns whatever happens; it delivers at most
    one [SIGTERM], to the process the marker records; and with a marker
    present, the marker is gone afterwards exactly when the signal was
    delivered or the process was not found: a marker that cannot be read,
    or a process that may not be signalled, leaves the marker in place. *)
Theorem stop_agent_outcome
        (py_int : string -> option Z) (os_kill_term : Z -> outcome unit)
        (agent_id : string) (dir : agents_dir) :
  snd (stop_agent py_int os_kill_term agent_id dir) = Returns tt
  /\ (snd (fst (stop_agent py_int os_kill_term agent_id dir)) = []
      \/ exists text pid,
          dir !! agent_id = Some text /\ py_int text = Some pid
          /\ os_kill_term pid = Returns tt
          /\ snd (fst (stop_agent py_int os_kill_term agent_id dir)) = [pid])
  /\ (forall text,
         dir !! agent_id = Some text ->
         (fst (fst (stop_agent py_int os_kill_term agent_id dir)) !! agent_id = None
          <-> match send_stop py_int os_kill_term text with
              | Returns _ => True
              | Raises e => isinstance e C_ProcessLookupError = true
              end)).
Proof.
  rewrite stop_agent_unfold.
  destruct (dir !! agent_id) as [text |] eqn:Hdir.
  - destruct (send_stop py_int os_kill_term text) as [pid | e] eqn:Hsend.
    + split; [reflexivity |]. split.
      * right. exists text, pid. unfold send_stop in Hsend.
        destruct (py_int text) as [pid' |]; [| discriminate Hsend].
        destruct (os_kill_term pid') as [[] | e] eqn:Hk; [| discriminate Hsend].
        injection Hsend as <-. auto.
      * intros text' Htext. injection Htext as <-. rewrite Hsend. cbn [fst].
        rewrite lookup_delete_eq. tauto.
    + destruct (isinstance e C_ProcessLookupError) eqn:Hple.
      * split; [reflexivity |]. split; [left; reflexivity |].
        intros text' Htext. injection Htext as <-. rewrite Hsend, Hple. cbn [fst].
        rewrite lookup_delete_eq. tauto.
      * split; [reflexivity |]. split; [left; reflexivity |].
        intros text' Htext. injection Htext as <-. rewrite Hsend, Hple. cbn [fst].
        rewrite Hdir. split; intros H; discriminate H.
  - split; [reflexivity |]. split; [left; reflexivity |].
    intros text Htext. discriminate Htext.
Qed.

Lemma stop_agent_outcome_witness :
  ({["agent-1" := "4242"]} : agents_dir) !! "agent-1" = Some "4242"
  /\ fst (fst (stop_agent decimal term_own_worker "agent-1"
                          {["agent-1" := "4242"]})) !! "agent-1" = None.
Proof.
  assert (Hdir : ({["agent-1" := "4242"]} : agents_dir) !! "agent-1" = Some "4242")
    by reflexivity.
  split; [exact Hdir |].
  apply (proj2 (proj2 (stop_agent_outcome decimal term_own_worker "agent-1"
                         {["agent-1" := "4242"]})) "4242" Hdir).
  exact I.
Defined.

(** X22.  After a [stop], the agent is never found running: provided a
    process that cannot be sent [SIGTERM] cannot be probed either, for
    the same reason, a liveness check made after the [stop] action does
    not answer true. *)
Theorem stopped_agent_is_not_running
        (py_int : string -> option Z) (os_kill_term os_kill : Z -> outcome unit)
        (agent_id : string) (dir : agents_dir) :
  (forall pid e, os_kill_term pid = Raises e -> os_kill pid = Raises e) ->
  snd (_is_agent_running py_int os_kill agent_id
         (fst (fst (stop_agent py_int os_kill_term agent_id dir))))
  <> Returns true.
Proof.
  intros Hsame. rewrite stop_agent_unfold.
  assert (Hgone : snd (_is_agent_running py_int os_kill agent_id (delete agent_id dir))
                  <> Returns true).
  { unfold _is_agent_running. rewrite lookup_delete_eq. discriminate. }
  destruct (dir !! agent_id) as [text |] eqn:Hdir.
  - unfold send_stop.
    destruct (py_int text) as [pid |] eqn:Hint.
    + destruct (os_kill_term pid) as [u | e] eqn:Hterm; [exact Hgone |].
      destruct (isinstance e C_ProcessLookupError); [exact Hgone |].
      cbn [fst]. unfold _is_agent_running, probe.
      rewrite Hdir, Hint, (Hsame pid e Hterm).
      destruct (dispatch running_clauses e); discriminate.
    + cbn. unfold _is_agent_running, probe. rewrite Hdir, Hint. cbn. discriminate.
  - cbn [fst]. unfold _is_agent_running. rewrite Hdir. discriminate.
Qed.

Lemma stopped_agent_is_not_running_witness :
  (forall pid e, term_own_worker pid = Raises e -> kill_own_worker pid = Raises e)
  /\ snd (_is_agent_running decimal kill_own_worker "agent-1"
            (fst (fst (stop_agent decimal term_own_worker "agent-1"
                                  {["agent-1" := "4242"]}))))
     <> Returns true.
Proof.
  assert (Hsame : forall pid e,
             term_own_worker pid = Raises e -> kill_own_worker pid = Raises e).
  { intros pid e. unfold term_own_worker, kill_own_worker.
    destruct (pid =? 4242); [discriminate | tauto]. }
  split; [exact Hsame |].
  exact (stopped_agent_is_not_running decimal term_own_worker kill_own_worker
           "agent-1" {["agent-1" := "4242"]} Hsame).
Defined.

(** X23.  The [start] action is refused only by a marker whose process
    answers the probe.  A marker of a process that is gone, or that may
    not be signalled, or a marker that cannot be read, is removed and the
    worker is started (a connection token being configured); so is it
    without a marker. *)
Theorem start_agent_guard
        (py_int : string -> option Z) (os_kill : Z -> outcome unit)
        (agent_id token : string) (dir : agents_dir) :
  token <> EmptyString ->
  (dir !! agent_id = None ->
   start_agent py_int os_kill agent_id (Some token) dir
   = (dir, Returns (StartWorker token)))
  /\ (forall text,
         dir !! agent_id = Some text -> py_int text = None ->
         start_agent py_int os_kill agent_id (Some token) dir
         = (delete agent_id dir, Returns (StartWorker token)))
  /\ (forall text pid,
         dir !! agent_id = Some text -> py_int text = Some pid ->
         dead os_kill pid \/ foreign os_kill pid ->
         start_agent py_int os_kill agent_id (Some token) dir
         = (delete agent_id dir, Returns (StartWorker token)))
  /\ (forall text pid,
         dir !! agent_id = Some text -> py_int text = Some pid ->
         os_kill pid = Returns tt ->
         forall connection_token,
           start_agent py_int os_kill agent_id connection_token dir
           = (dir, Returns AlreadyRunning)).
Proof.
  intros Htoken.
  assert (Hne : String.eqb token EmptyString = false)
    by (apply String.eqb_neq; exact Htoken).
  unfold start_agent, _is_agent_running, probe, dead, foreign.
  split; [| split; [| split]].
  - intros ->. rewrite Hne. reflexivity.
  - intros text -> ->. cbn. rewrite Hne. reflexivity.
  - intros text pid -> -> Hgone.
    destruct (os_kill pid) as [u | e]; [tauto |].
    cbn [dispatch running_clauses matches existsb].
    destruct Hgone as [-> | ->]; rewrite ?orb_true_r; rewrite Hne; reflexivity.
  - intros text pid -> -> -> connection_token. reflexivity.
Qed.

Lemma start_agent_guard_witness :
  "token-1" <> EmptyString
  /\ ({["agent-1" := "1"]} : agents_dir) !! "agent-1" = Some "1"
  /\ decimal "1" = Some 1
  /\ foreign kill_foreign_init 1
  /\ start_agent decimal kill_foreign_init "agent-1" (Some "token-1")
                 {["agent-1" := "1"]}
     = (delete "agent-1" {["agent-1" := "1"]}, Returns (StartWorker "token-1")).
Proof.
  assert (Htoken : "token-1" <> EmptyString) by discriminate.
  assert (Hdir : ({["agent-1" := "1"]} : agents_dir) !! "agent-1" = Some "1")
    by reflexivity.
  assert (Hforeign : foreign kill_foreign_init 1) by reflexivity.
  split; [exact Htoken |]. split; [exact Hdir |]. split; [reflexivity |].
  split; [exact Hforeign |].
  exact (proj1 (proj2 (proj2 (start_agent_guard decimal kill_foreign_init
                                "agent-1" "token-1" {["agent-1" := "1"]} Htoken)))
               "1" 1 Hdir eq_refl (or_intror Hforeign)).
Defined.

(* ===================================================================== *)
(** ** The poll cycle of the worker *)
(* ===================================================================== *)

Section Worker.

Variable w : os.
Variable poll_interval : Z.
Variables connection_token backend anon_key : string.

(** Every exception is taken by the handler of the outer [try]. *)
Lemma recover_returns (e : exn) (c : cycle) :
  recover e c
  = Returns (Cycle (errors_after c) (disk_after c) (events c) (reports c)
                   (slept c ++ [ERROR_PAUSE])).
Proof. unfold recover. destruct e as [[] code msg]; reflexivity. Qed.

(** A sleep at the end of a pass: one more sleep is made, of a length
    that is not negative. *)
Lemma sleep_then_returns (seconds : Z) (c : cycle) :
  exists s,
    sleep_then seconds c
    = Returns (Cycle (errors_after c) (disk_after c) (events c) (reports c)
                     (slept c ++ [s]))
    /\ 0 <= s /\ (0 <= seconds -> s = seconds).
Proof.
  unfold sleep_then, py_sleep. destruct (Z.ltb_spec seconds 0).
  - rewrite recover_returns. exists ERROR_PAUSE.
    split; [reflexivity |]. unfold ERROR_PAUSE. lia.
  - exists seconds. split; [reflexivity |]. lia.
Qed.

End Worker.

Section WorkerLoop.

Variable w : os.
Variable poll_interval : Z.
Variables connection_token backend anon_key : string.

(** An [OSError] raised by the poll, an HTTP error included, is taken by
    the first clause of the poll's [try]. *)
Lemma poll_failure_backs_off (e : exn) :
  isinstance e C_OSError = true -> dispatch poll_clauses e = Some Backoff.
Proof. destruct e as [[] code msg]; cbn; intros H; congruence. Qed.

(** Passes whose polls all fail, from a counter of [k] failures. *)
Lemma worker_loop_failures (inputs : list cycle_input) :
  0 <= poll_interval ->
  Forall (fun i => exists e,
              in_poll i (poll_request backend anon_key connection_token) = Raises e
              /\ isinstance e C_OSError = true) inputs ->
  forall (k : nat) (d : disk) (sleeps : list Z),
    worker_loop w poll_interval connection_token backend anon_key inputs
                (Z.of_nat k) d sleeps
    = Returns (Z.of_nat (k + length inputs), d,
               sleeps ++ map (backoff poll_interval) (seq (S k) (length inputs))).
Proof.
  intros Hp Hfail. induction Hfail as [| i inputs (e & Hpoll & He) _ IH];
    intros k d sleeps.
  - cbn. rewrite Nat.add_0_r, app_nil_r. reflexivity.
  - cbn [worker_loop]. unfold worker_cycle.
    rewrite Hpoll, (poll_failure_backs_off e He).
    destruct (sleep_then_returns
                (Z.min (poll_interval * (Z.of_nat k + 1)) BACKOFF_CEILING)
                (Cycle (Z.of_nat k + 1) d [] [] [])) as (s & -> & _ & Hs).
    cbn [errors_after disk_after slept app].
    rewrite Hs by (unfold BACKOFF_CEILING; nia).
    replace (Z.of_nat k + 1) with (Z.of_nat (S k)) by lia.
    rewrite IH. cbn [length seq map]. unfold backoff at 3.
    rewrite <- app_assoc. cbn [app]. do 3 f_equal. lia.
Qed.

End WorkerLoop.

(** X26.  A worker whose polls all fail with an [OSError] (the backend
    unreachable, a timeout, or an HTTP error answer): the [k]-th failure
    in a row is followed by a sleep of [min(poll_interval * k, 60)]
    seconds, so the delays never decrease and never exceed 60; the queue
    file is not touched; and when the loop is left the marker written at
    the start is removed. *)
Theorem failing_polls_back_off
        (getpid : Z) (w : os) (agent_id connection_token backend anon_key : string)
        (poll_interval : Z) (inputs : list cycle_input)
        (dir : agents_dir) (d : disk) :
  0 <= poll_interval ->
  Forall (fun i => exists e,
              in_poll i (poll_request backend anon_key connection_token) = Raises e
              /\ isinstance e C_OSError = true) inputs ->
  _agent_worker getpid w agent_id connection_token backend anon_key poll_interval
                inputs dir d
  = (delete agent_id dir,
     Returns (Z.of_nat (length inputs), d,
              map (backoff poll_interval) (seq 1 (length inputs))))
  /\ (forall k, 0 <= backoff poll_interval k <= 60
                /\ backoff poll_interval k <= backoff poll_interval (S k)).
Proof.
  intros Hp Hfail. split.
  - unfold _agent_worker.
    pose proof (worker_loop_failures w poll_interval connection_token backend anon_key
                  inputs Hp Hfail 0 d []) as Hrun.
    change (Z.of_nat 0) with 0 in Hrun. rewrite Hrun.
    cbn [app Nat.add]. f_equal.
    unfold _remove_pid, _write_pid. rewrite lookup_insert_eq. apply delete_insert_eq.
  - intros k. unfold backoff, BACKOFF_CEILING. nia.
Qed.

(** An HTTP 503 answer, then an unreachable backend, polling every five
    seconds. *)
Lemma failing_polls_back_off_witness :
  0 <= 5
  /\ _agent_worker 4242 (os_with sleeper) "agent-1" "token" "https://backend" "anon" 5
                   [pass_unavailable; pass_unreachable] ∅ None
     = (delete "agent-1" ∅, Returns (2, None, [5; 10])).
Proof.
  split; [lia |].
  apply (failing_polls_back_off 4242 (os_with sleeper) "agent-1" "token"
           "https://backend" "anon" 5 [pass_unavailable; pass_unreachable] ∅ None).
  - lia.
  - repeat constructor.
    + exists (http_error 503). split; reflexivity.
    + exists url_error. split; reflexivity.
Defined.

(** [sleep 600] again: no output, and the exit comes with the end of the
    output. *)
Lemma shell_waits_for_end_of_output_witness :
  total_len (stdout_lines sleeper) <= OUTPUT_CEILING
  /\ exit_at sleeper <= eof_at sleeper + WAIT_TIMEOUT
  /\ fst (_execute_task (os_with sleeper) (shell_task "sleep 600"))
     = Returns (TaskResult "completed"
                  (JObj [("exit_code", JNum 0); ("output", JStr EmptyString)])).
Proof.
  assert (Hquiet : total_len (stdout_lines sleeper) <= OUTPUT_CEILING)
    by (vm_compute; discriminate).
  assert (Hexit : exit_at sleeper <= eof_at sleeper + WAIT_TIMEOUT)
    by (vm_compute; discriminate).
  split; [exact Hquiet |]. split; [exact Hexit |].
  rewrite (shell_waits_for_end_of_output (os_with sleeper) (shell_task "sleep 600")
             sleeper eq_refl eq_refl Hquiet Hexit).
  reflexivity.
Defined.

(* ===================================================================== *)
(** ** The executor on tasks as they are decoded *)
(* ===================================================================== *)

Section RawPaths.

Variable py_repr : json -> string.




(** A task that is a dict: the three field reads succeed, and what
    remains is the progress print and the dispatch. *)
Lemma raw_execute_task_dict (w : Raw.os) (fields : list (string * json)) :
  Raw._execute_task py_repr w (JObj fields)
  = match Raw.py_slice (Raw.task_description fields) with
    | Raises e => (Raw.Ends (Raises e), [])
    | Returns _ =>
        if Raw.kind_in ["shell"; "command"; "execute"] (Raw.task_kind fields) then
          Raw.shell_branch w (Raw.task_data fields) (Raw.task_description fields)
        else if Raw.kind_in ["python"; "script"] (Raw.task_kind fields) then
          Raw.script_branch w (Raw.task_data fields)
        else
          (Raw.Ends (Returns
                       (TaskResult "completed"
                          (JObj [("message",
                                  JStr ("Acknowledged task type: "
                                        +:+ Raw.py_format py_repr (Raw.task_kind fields)));
                                 ("description", Raw.task_description fields)]))),
           [])
    end.
Proof. reflexivity. Qed.


End RawPaths.







Section RawRefinement.

Variable py_repr : json -> string.

(** On lines that are decoded and not empty, the read loops agree. *)
Lemma read_loop_refines (lines : list string) :
  forall collected,
    Forall (fun l => l <> EmptyString) lines ->
    Raw.read_loop (map Raw.Line lines) collected
    = (fst (read_loop lines collected),
       if snd (read_loop lines collected) then Raw.Truncated else Raw.AtEof).
Proof.
  induction lines as [| line lines IH]; intros collected Hne.
  - reflexivity.
  - apply Forall_cons_1 in Hne as [Hline Hlines].
    cbn [map Raw.read_loop read_loop].
    destruct (String.eqb_spec line EmptyString) as [Heq | _]; [contradiction |].
    destruct (OUTPUT_CEILING <? total_len (collected ++ [line])); [reflexivity |].
    apply IH. exact Hlines.
Qed.

Lemma handle_shell_refines (before : list event) (e : exn) :
  Raw.handle Raw.shell_clauses (map Raw.lift_event before) e
  = (Raw.Ends (fst (handle shell_clauses before e)),
     map Raw.lift_event (snd (handle shell_clauses before e))).
Proof.
  unfold Raw.handle, handle.
  destruct e as [[] code msg]; cbn; rewrite ?map_app; reflexivity.
Qed.

Lemma handle_script_refines (before : list event) (e : exn) :
  Raw.handle Raw.script_clauses (map Raw.lift_event before) e
  = (Raw.Ends (fst (handle script_clauses before e)),
     map Raw.lift_event (snd (handle script_clauses before e))).
Proof.
  unfold Raw.handle, handle.
  destruct e as [[] code msg]; cbn; rewrite ?map_app; reflexivity.
Qed.

(** On a task whose fields have the types of the data model, and an
    operating system whose processes print decoded, non-empty lines,
    [Raw._execute_task] does what [Agents._execute_task] does. *)
Local Abbreviation encoded_data cmd dir src :=
  (Raw.encode_field "command" cmd ++ Raw.encode_field "cwd" dir
   ++ Raw.encode_field "script" src).

(** The [action_data] of an encoded task is the dict of its fields, also
    when it is empty. *)
Lemma encoded_get (data : list (string * json)) (k : string) (dflt : json) :
  Raw.py_get (Raw.py_or (JObj data) (JObj [])) k dflt
  = Returns (default dflt (assoc k data)).
Proof. destruct data; reflexivity. Qed.

Lemma encoded_task_data (fields : list (string * json))
      (cmd dir src : option string) :
  default JNull (assoc "action_data" fields) = JObj (encoded_data cmd dir src) ->
  Raw.task_data fields = Raw.py_or (JObj (encoded_data cmd dir src)) (JObj []).
Proof. intros H. unfold Raw.task_data. rewrite H. reflexivity. Qed.

Lemma execute_task_refines (w : os) (t : task) :
  (forall c d p, popen w c d = Returns p ->
                 Forall (fun l => l <> EmptyString) (stdout_lines p)) ->
  Raw._execute_task py_repr (Raw.lift_os w) (Raw.encode_task t)
  = (Raw.Ends (fst (_execute_task w t)),
     map Raw.lift_event (snd (_execute_task w t))).
Proof.
  intros Hlines. destruct t as [kind [cmd dir src] desc].
  unfold Raw.encode_task.
  cbn [action_type task_data action_description command cwd script].
  rewrite raw_execute_task_dict. unfold _execute_task.
  cbn [action_type task_data action_description command cwd script].
  match goal with
  | |- context [Raw.task_description ?f] =>
      change (Raw.task_description f) with (JStr desc);
      change (Raw.task_kind f) with (JStr kind);
      rewrite (encoded_task_data f cmd dir src eq_refl)
  end.
  cbn [Raw.py_slice Raw.sliceable Raw.kind_in].
  fold (is_shell_kind kind). fold (is_script_kind kind).
  destruct (is_shell_kind kind).
  - unfold Raw.shell_branch. cbn [Raw.home Raw.lift_os].
    rewrite !encoded_get. cbn [Raw.popen Raw.lift_os].
    replace (default (JStr desc) (assoc "command" (encoded_data cmd dir src)))
      with (JStr (default desc cmd)) by (destruct cmd, dir, src; reflexivity).
    replace (default (JStr (home w)) (assoc "cwd" (encoded_data cmd dir src)))
      with (JStr (default (home w) dir)) by (destruct cmd, dir, src; reflexivity).
    destruct (popen w (default desc cmd) (default (home w) dir)) as [p | e] eqn:Hp.
    + cbn [Raw.lift_outcome Raw.lift_process Raw.reads].
      rewrite (read_loop_refines (stdout_lines p) [] (Hlines _ _ _ Hp)).
      destruct (read_loop (stdout_lines p) []) as [output_lines killed].
      cbn [fst snd]. destruct killed.
      * reflexivity.
      * unfold Raw.wait, wait, Raw.lift_process.
        cbn [Raw.exit_at Raw.eof_at Raw.returncode Raw.returncode_killed].
        destruct (exit_at p <=? eof_at p + WAIT_TIMEOUT); reflexivity.
    + cbn [Raw.lift_outcome].
      apply (handle_shell_refines [CallPopen (default desc cmd) (default (home w) dir)] e).
  - destruct (is_script_kind kind); [| reflexivity].
    unfold Raw.script_branch. cbn [Raw.home Raw.lift_os].
    rewrite !encoded_get.
    replace (default (JStr EmptyString) (assoc "script" (encoded_data cmd dir src)))
      with (JStr (default EmptyString src)) by (destruct cmd, dir, src; reflexivity).
    replace (default (JStr (home w)) (assoc "cwd" (encoded_data cmd dir src)))
      with (JStr (default (home w) dir)) by (destruct cmd, dir, src; reflexivity).
    cbn [truthy].
    destruct (String.eqb (default EmptyString src) EmptyString); [reflexivity |].
    cbn [negb Raw.run_python Raw.lift_os].
    destruct (run_python w (default EmptyString src) (default (home w) dir)) as [r | e].
    + reflexivity.
    + apply (handle_script_refines
               [CallRun (default EmptyString src) (default (home w) dir)] e).
Qed.

End RawRefinement.

Section RawTotality.

Variable py_repr : json -> string.
Variable w : Raw.os.






End RawTotality.


(* ===================================================================== *)
(** ** The poll cycle on responses as they are decoded *)
(* ===================================================================== *)

Section RawWorker.

Variable py_repr : json -> string.
Variable w : Raw.os.
Variables connection_token backend anon_key : string.

Lemma raw_recover_returns (e : exn) (c : Raw.cycle) :
  Raw.recover e c
  = Raw.Ends (Returns (Raw.Cycle (Raw.errors_after c) (Raw.disk_after c)
                                 (Raw.events c) (Raw.reports c)
                                 (Raw.slept c ++ [ERROR_PAUSE]))).
Proof. unfold Raw.recover. destruct e as [[] code msg]; reflexivity. Qed.

Lemma raw_sleep_then_returns (seconds : Z) (c : Raw.cycle) :
  exists s,
    Raw.sleep_then seconds c
    = Raw.Ends (Returns (Raw.Cycle (Raw.errors_after c) (Raw.disk_after c)
                                   (Raw.events c) (Raw.reports c)
                                   (Raw.slept c ++ [s])))
    /\ (s = seconds \/ s = ERROR_PAUSE) /\ 0 <= s /\ (0 <= seconds -> s = seconds).
Proof.
  unfold Raw.sleep_then, py_sleep. destruct (Z.ltb_spec seconds 0).
  - rewrite raw_recover_returns. exists ERROR_PAUSE.
    split; [reflexivity |]. unfold ERROR_PAUSE. split; [right; reflexivity | lia].
  - exists seconds. split; [reflexivity |]. split; [left; reflexivity | lia].
Qed.






End RawWorker.





(** X25.  A pass of the worker's loop either never ends (the output of a
    shell task stalls) or ends with exactly one [time.sleep] call, of a
    length that is not negative: [poll_interval], the back-off delay, or
    the five-second pause of the outer handler.  No exception of the
    modelled classes leaves the pass.  With a poll interval of at least
    one second and a counter that is not negative, the sleep lasts at
    least one second. *)
Theorem worker_pass_sleeps_once_or_hangs
        (py_repr : json -> string) (w : Raw.os)
        (connection_token backend anon_key : string) (poll_interval : Z)
        (poll : request -> outcome json)
        (clock : nat -> string) (net : nat -> request -> outcome json)
        (consecutive_errors : Z) (d : disk) :
  Raw.worker_cycle py_repr w connection_token backend anon_key poll_interval
                   poll clock net consecutive_errors d
  = Raw.Hangs
  \/ exists c s,
      Raw.worker_cycle py_repr w connection_token backend anon_key poll_interval
                       poll clock net consecutive_errors d
      = Raw.Ends (Returns c)
      /\ Raw.slept c = [s]
      /\ (s = poll_interval
          \/ s = Z.min (poll_interval * (consecutive_errors + 1)) 60
          \/ s = 5)
      /\ 0 <= s
      /\ (1 <= poll_interval -> 0 <= consecutive_errors -> 1 <= s).
Proof.
  unfold Raw.worker_cycle.
  destruct (poll (poll_request backend anon_key connection_token)) as [result | e].
  - destruct (Raw.handle_response py_repr w connection_token backend anon_key
                                  clock net result d)
      as [[[d' evs] sent] [[u | e] |]].
    + right.
      destruct (raw_sleep_then_returns poll_interval (Raw.Cycle 0 d' evs sent []))
        as (s & -> & Hs & Hpos & _).
      eexists _, s. split; [reflexivity |]. split; [reflexivity |].
      unfold ERROR_PAUSE in Hs. split; [tauto |]. split; [exact Hpos | lia].
    + right. rewrite raw_recover_returns. eexists _, 5.
      split; [reflexivity |]. split; [reflexivity |]. split; [tauto | lia].
    + left. reflexivity.
  - right. destruct (dispatch poll_clauses e) as [[] |].
    + destruct (raw_sleep_then_returns
                  (Z.min (poll_interval * (consecutive_errors + 1)) BACKOFF_CEILING)
                  (Raw.Cycle (consecutive_errors + 1) d [] [] []))
        as (s & -> & Hs & Hpos & _).
      eexists _, s. split; [reflexivity |]. split; [reflexivity |].
      unfold ERROR_PAUSE, BACKOFF_CEILING in Hs.
      split; [tauto |]. split; [exact Hpos |].
      intros Hp He. destruct Hs as [-> | ->]; [| lia].
      apply Z.min_glb; [nia | lia].
    + destruct (raw_sleep_then_returns poll_interval
                  (Raw.Cycle consecutive_errors d [] [] []))
        as (s & -> & Hs & Hpos & _).
      eexists _, s. split; [reflexivity |]. split; [reflexivity |].
      unfold ERROR_PAUSE in Hs. split; [tauto |]. split; [exact Hpos | lia].
    + rewrite raw_recover_returns. eexists _, 5.
      split; [reflexivity |]. split; [reflexivity |]. split; [tauto | lia].
Qed.


(** A poll that cannot reach the backend, polling every five seconds. *)
Lemma worker_pass_sleeps_once_or_hangs_witness :
  1 <= 5
  /\ exists c s,
      Raw.worker_cycle Raw.repr_stub (Raw.os_with Raw.chatty)
                       "token" "https://backend" "anon" 5
                       (fun _ => Raises url_error)
                       (fun _ => "2024-05-01T10:00:00+00:00")
                       (fun _ _ => Raises url_error) 0 None
      = Raw.Ends (Returns c)
      /\ Raw.slept c = [s] /\ 1 <= s.
Proof.
  split; [lia |].
  destruct (worker_pass_sleeps_once_or_hangs
              Raw.repr_stub (Raw.os_with Raw.chatty) "token" "https://backend" "anon" 5
              (fun _ => Raises url_error) (fun _ => "2024-05-01T10:00:00+00:00")
              (fun _ _ => Raises url_error) 0 None)
    as [Hhang | (c & s & Hc & Hs & _ & _ & Hpos)].
  - discriminate Hhang.
  - exists c, s. split; [exact Hc |]. split; [exact Hs |]. apply Hpos; lia.
Defined.
